(** * Search session state machine and assistant editor checks

    A shallow embedding of the client-side logic of
    [web/src/app/chat/sessionSidebar/ChatSessionDisplay.tsx] (the
    [SearchSection] component: streamed response merging, phase pacing,
    request cancellation, quote de-duplication) and of
    [web/src/app/admin/assistants/AssistantEditor.tsx] (the prompt
    validation rule and the [num_chunks] payload shaping).

    React state cells become fields of a [Store]; a [setX] call becomes a
    field update, applied in program order.  A handler is a closure of the
    render that created it: what it reads from the enclosing scope
    ([query], [agentic], [disabledAgentic], [analyzeStartTime]) is passed
    as a [Scope]; what it reads through a functional update
    ([setSearchState (s => ...)], [setSearchResponse (prev => ...)]) or a
    ref is read from the [Store].  [Date.now()] is the [clock] field and
    [setTimeout] appends to a timer queue. *)

From Stdlib Require Import ZArith String List Bool Lia.
From stdpp Require Import base tactics option list sorting gmap strings.

Local Open Scope string_scope.
Local Open Scope Z_scope.

Set Warnings "-clear-no-such-hyp".

(** ** Data model *)

(** [export type searchState = "input" | "searching" | ...], in the
    order of the declaration. *)
Inductive searchState : Set :=
| input | searching | reading | analyzing | summarizing | generating | citing.

(** Position of a phase in the declared order. *)
Definition phaseRank (s : searchState) : Z :=
  match s with
  | input => 0 | searching => 1 | reading => 2 | analyzing => 3
  | summarizing => 4 | generating => 5 | citing => 6
  end.

Definition searchState_eqb (a b : searchState) : bool :=
  Z.eqb (phaseRank a) (phaseRank b).

#[global] Instance searchState_eq_dec : EqDecision searchState.
Proof. solve_decision. Defined.

(** Modelled from the spec: the [Quote] interface is declared in
    [lib/search/interfaces]; the spec gives it a document id, a text and
    metadata, and the source reads [quote.document_id]. *)
Record Quote : Set := mkQuote {
  document_id : string;
  quote_text : string;
  quote_metadata : string
}.

(** Modelled from the spec: [SearchDanswerDocument] is declared in
    [lib/search/interfaces]; the code in scope only stores the list and
    reads its [length]. *)
Record SearchDanswerDocument : Set := mkDocument {
  doc_document_id : string;
  doc_blurb : string
}.

(** Modelled from the spec: [Relevance] is declared in
    [lib/search/interfaces]; the code in scope stores it unread. *)
Definition Relevance : Set := list (string * bool).

(** [SearchResponse]; [null] and [undefined] are [None].  [SearchType]
    and [FlowType] are string enumerations, kept as their strings. *)
Record SearchResponse : Set := mkSearchResponse {
  answer : option string;
  quotes : option (list Quote);
  documents : option (list SearchDanswerDocument);
  suggestedSearchType : option string;
  suggestedFlowType : option string;
  selectedDocIndices : option (list Z);
  error : option string;
  messageId : option Z;
  additional_relevance : option Relevance
}.

Definition initialSearchResponse : SearchResponse :=
  mkSearchResponse None None None None None None None None None.

(** Timer callbacks created by the handlers. *)
Inductive TimerAction : Set :=
| ToReading      (* updateDocs, first setTimeout  *)
| ToAnalyzing    (* updateDocs, second setTimeout *)
| ToGenerating.  (* updateCurrentAnswer           *)

Record Timer : Set := mkTimer { due : Z; action : TimerAction }.

(** What a handler reads from the scope of the render that created it. *)
Record Scope : Set := mkScope {
  sc_query : string;
  sc_agentic : bool;
  sc_disabledAgentic : bool;
  sc_analyzeStartTime : Z
}.

(** [SearchRequestOverrides]. *)
Record SearchRequestOverrides : Set := mkOverrides {
  ov_searchType : option string;
  ov_agentic : option bool;
  ov_offset : option Z;
  overrideMessage : option string
}.

Definition noOverrides : SearchRequestOverrides :=
  mkOverrides None None None None.

(** A streamed request as issued by [onSearch]: the query sent, the token
    every callback was wrapped with, and the scope the callbacks close
    over. *)
Record Request : Set := mkRequest {
  req_query : string;
  req_agentic : option bool;
  req_token : nat;
  req_scope : Scope
}.

(** The component's state cells, its ref, the token objects it created,
    the clock and the timer queue. *)
Record Store : Set := mkStore {
  searchResponse : SearchResponse;
  phase : searchState;                       (* [searchState] state cell *)
  analyzeStartTime : Z;
  isFetching : bool;
  comments : option string;
  contentEnriched : bool;
  sweep : bool;
  firstSearch : bool;
  searchAnswerExpanded : bool;
  agenticResults : option bool;
  agentic : bool;
  disabledAgentic : bool;                    (* prop *)
  query : string;
  clock : Z;                                 (* Date.now() *)
  timers : list Timer;
  tokens : list bool;                        (* isCancelled of token i *)
  lastSearchCancellationToken : option nat;  (* ref.current *)
  requests : list Request                    (* streams opened so far *)
}.

(** The setters of the state cells; the two updated through a function
    of the previous value take that function. *)
Definition setSearchResponse (f : SearchResponse -> SearchResponse) (st : Store) : Store :=
  mkStore
    (f (searchResponse st)) (phase st) (analyzeStartTime st) (isFetching st)
    (comments st) (contentEnriched st) (sweep st) (firstSearch st)
    (searchAnswerExpanded st) (agenticResults st) (agentic st)
    (disabledAgentic st) (query st) (clock st) (timers st) (tokens st)
    (lastSearchCancellationToken st) (requests st).
Definition setSearchState (f : searchState -> searchState) (st : Store) : Store :=
  mkStore
    (searchResponse st) (f (phase st)) (analyzeStartTime st) (isFetching st)
    (comments st) (contentEnriched st) (sweep st) (firstSearch st)
    (searchAnswerExpanded st) (agenticResults st) (agentic st)
    (disabledAgentic st) (query st) (clock st) (timers st) (tokens st)
    (lastSearchCancellationToken st) (requests st).
Definition setAnalyzeStartTime (v : Z) (st : Store) : Store :=
  mkStore
    (searchResponse st) (phase st) v (isFetching st) (comments st)
    (contentEnriched st) (sweep st) (firstSearch st)
    (searchAnswerExpanded st) (agenticResults st) (agentic st)
    (disabledAgentic st) (query st) (clock st) (timers st) (tokens st)
    (lastSearchCancellationToken st) (requests st).
Definition setIsFetching (v : bool) (st : Store) : Store :=
  mkStore
    (searchResponse st) (phase st) (analyzeStartTime st) v (comments st)
    (contentEnriched st) (sweep st) (firstSearch st)
    (searchAnswerExpanded st) (agenticResults st) (agentic st)
    (disabledAgentic st) (query st) (clock st) (timers st) (tokens st)
    (lastSearchCancellationToken st) (requests st).
Definition setComments (v : option string) (st : Store) : Store :=
  mkStore
    (searchResponse st) (phase st) (analyzeStartTime st) (isFetching st) v
    (contentEnriched st) (sweep st) (firstSearch st)
    (searchAnswerExpanded st) (agenticResults st) (agentic st)
    (disabledAgentic st) (query st) (clock st) (timers st) (tokens st)
    (lastSearchCancellationToken st) (requests st).
Definition setContentEnriched (v : bool) (st : Store) : Store :=
  mkStore
    (searchResponse st) (phase st) (analyzeStartTime st) (isFetching st)
    (comments st) v (sweep st) (firstSearch st) (searchAnswerExpanded st)
    (agenticResults st) (agentic st) (disabledAgentic st) (query st)
    (clock st) (timers st) (tokens st) (lastSearchCancellationToken st)
    (requests st).
Definition setSweep (v : bool) (st : Store) : Store :=
  mkStore
    (searchResponse st) (phase st) (analyzeStartTime st) (isFetching st)
    (comments st) (contentEnriched st) v (firstSearch st)
    (searchAnswerExpanded st) (agenticResults st) (agentic st)
    (disabledAgentic st) (query st) (clock st) (timers st) (tokens st)
    (lastSearchCancellationToken st) (requests st).
Definition setFirstSearch (v : bool) (st : Store) : Store :=
  mkStore
    (searchResponse st) (phase st) (analyzeStartTime st) (isFetching st)
    (comments st) (contentEnriched st) (sweep st) v (searchAnswerExpanded st)
    (agenticResults st) (agentic st) (disabledAgentic st) (query st)
    (clock st) (timers st) (tokens st) (lastSearchCancellationToken st)
    (requests st).
Definition setSearchAnswerExpanded (v : bool) (st : Store) : Store :=
  mkStore
    (searchResponse st) (phase st) (analyzeStartTime st) (isFetching st)
    (comments st) (contentEnriched st) (sweep st) (firstSearch st) v
    (agenticResults st) (agentic st) (disabledAgentic st) (query st)
    (clock st) (timers st) (tokens st) (lastSearchCancellationToken st)
    (requests st).
Definition setAgenticResults (v : option bool) (st : Store) : Store :=
  mkStore
    (searchResponse st) (phase st) (analyzeStartTime st) (isFetching st)
    (comments st) (contentEnriched st) (sweep st) (firstSearch st)
    (searchAnswerExpanded st) v (agentic st) (disabledAgentic st) (query st)
    (clock st) (timers st) (tokens st) (lastSearchCancellationToken st)
    (requests st).
Definition setQuery (v : string) (st : Store) : Store :=
  mkStore
    (searchResponse st) (phase st) (analyzeStartTime st) (isFetching st)
    (comments st) (contentEnriched st) (sweep st) (firstSearch st)
    (searchAnswerExpanded st) (agenticResults st) (agentic st)
    (disabledAgentic st) v (clock st) (timers st) (tokens st)
    (lastSearchCancellationToken st) (requests st).
Definition setClock (v : Z) (st : Store) : Store :=
  mkStore
    (searchResponse st) (phase st) (analyzeStartTime st) (isFetching st)
    (comments st) (contentEnriched st) (sweep st) (firstSearch st)
    (searchAnswerExpanded st) (agenticResults st) (agentic st)
    (disabledAgentic st) (query st) v (timers st) (tokens st)
    (lastSearchCancellationToken st) (requests st).
Definition setTimers (v : list Timer) (st : Store) : Store :=
  mkStore
    (searchResponse st) (phase st) (analyzeStartTime st) (isFetching st)
    (comments st) (contentEnriched st) (sweep st) (firstSearch st)
    (searchAnswerExpanded st) (agenticResults st) (agentic st)
    (disabledAgentic st) (query st) (clock st) v (tokens st)
    (lastSearchCancellationToken st) (requests st).
Definition setTokens (v : list bool) (st : Store) : Store :=
  mkStore
    (searchResponse st) (phase st) (analyzeStartTime st) (isFetching st)
    (comments st) (contentEnriched st) (sweep st) (firstSearch st)
    (searchAnswerExpanded st) (agenticResults st) (agentic st)
    (disabledAgentic st) (query st) (clock st) (timers st) v
    (lastSearchCancellationToken st) (requests st).
Definition setLastToken (v : option nat) (st : Store) : Store :=
  mkStore
    (searchResponse st) (phase st) (analyzeStartTime st) (isFetching st)
    (comments st) (contentEnriched st) (sweep st) (firstSearch st)
    (searchAnswerExpanded st) (agenticResults st) (agentic st)
    (disabledAgentic st) (query st) (clock st) (timers st) (tokens st) v
    (requests st).
Definition setRequests (v : list Request) (st : Store) : Store :=
  mkStore
    (searchResponse st) (phase st) (analyzeStartTime st) (isFetching st)
    (comments st) (contentEnriched st) (sweep st) (firstSearch st)
    (searchAnswerExpanded st) (agenticResults st) (agentic st)
    (disabledAgentic st) (query st) (clock st) (timers st) (tokens st)
    (lastSearchCancellationToken st) v.

(** The store of a freshly mounted [SearchSection]. *)
Definition initialStore (agenticSearchEnabled disabled : bool) : Store :=
  mkStore initialSearchResponse input 0 false None false false true false
          None agenticSearchEnabled disabled "" 0 [] [] None [].

(** The scope a render of the current store gives to its closures. *)
Definition scopeOf (st : Store) : Scope :=
  mkScope (query st) (agentic st) (disabledAgentic st) (analyzeStartTime st).

(** [setTimeout(cb, delay)]. *)
Definition setTimeout (a : TimerAction) (delay : Z) (st : Store) : Store :=
  setTimers (timers st ++ [mkTimer (clock st + delay) a]) st.

(** ** Session state store: the merge performed by each update

    Each is the function passed to [setSearchResponse]:
    [prevState => ({ ...(prevState || initialSearchResponse), field })].
    [prevState] is always an object, hence truthy, so the spread copies
    [prevState]. *)

Definition withAnswer (v : string) (p : SearchResponse) : SearchResponse :=
  mkSearchResponse (Some v) (quotes p) (documents p) (suggestedSearchType p)
    (suggestedFlowType p) (selectedDocIndices p) (error p) (messageId p)
    (additional_relevance p).
Definition withQuotes (v : list Quote) (p : SearchResponse) : SearchResponse :=
  mkSearchResponse (answer p) (Some v) (documents p) (suggestedSearchType p)
    (suggestedFlowType p) (selectedDocIndices p) (error p) (messageId p)
    (additional_relevance p).
Definition withDocuments (v : list SearchDanswerDocument) (p : SearchResponse)
  : SearchResponse :=
  mkSearchResponse (answer p) (quotes p) (Some v) (suggestedSearchType p)
    (suggestedFlowType p) (selectedDocIndices p) (error p) (messageId p)
    (additional_relevance p).
Definition withSuggestedSearchType (v : string) (p : SearchResponse)
  : SearchResponse :=
  mkSearchResponse (answer p) (quotes p) (documents p) (Some v)
    (suggestedFlowType p) (selectedDocIndices p) (error p) (messageId p)
    (additional_relevance p).
Definition withSuggestedFlowType (v : string) (p : SearchResponse)
  : SearchResponse :=
  mkSearchResponse (answer p) (quotes p) (documents p) (suggestedSearchType p)
    (Some v) (selectedDocIndices p) (error p) (messageId p)
    (additional_relevance p).
Definition withSelectedDocIndices (v : list Z) (p : SearchResponse)
  : SearchResponse :=
  mkSearchResponse (answer p) (quotes p) (documents p) (suggestedSearchType p)
    (suggestedFlowType p) (Some v) (error p) (messageId p)
    (additional_relevance p).
Definition withError (v : string) (p : SearchResponse) : SearchResponse :=
  mkSearchResponse (answer p) (quotes p) (documents p) (suggestedSearchType p)
    (suggestedFlowType p) (selectedDocIndices p) (Some v) (messageId p)
    (additional_relevance p).
Definition withMessageId (v : Z) (p : SearchResponse) : SearchResponse :=
  mkSearchResponse (answer p) (quotes p) (documents p) (suggestedSearchType p)
    (suggestedFlowType p) (selectedDocIndices p) (error p) (Some v)
    (additional_relevance p).
Definition withRelevance (v : Relevance) (p : SearchResponse) : SearchResponse :=
  mkSearchResponse (answer p) (quotes p) (documents p) (suggestedSearchType p)
    (suggestedFlowType p) (selectedDocIndices p) (error p) (messageId p)
    (Some v).

(** ** Phase tracker *)

(** [newSearchState(currentSearchState, newSearchState)]. *)
Definition newSearchState (currentSearchState next : searchState)
  : searchState :=
  if negb (searchState_eqb currentSearchState input) then next else input.

(** [Math.ceil(a / b)] for an integer [a] and a positive integer [b]. *)
Definition ceilDiv (a b : Z) : Z := - ((- a) / b).

(** [resetInput(finalized?)]. *)
Definition resetInput (finalized : bool) (st : Store) : Store :=
  let st := setSweep false st in
  let st := setFirstSearch false st in
  let st := setComments None st in
  let st := setSearchState (fun _ => if finalized then input else searching) st in
  setSearchAnswerExpanded false st.

(** *** Streaming updates *)

Definition updateCurrentAnswer (sc : Scope) (a : string) (st : Store) : Store :=
  let st := setSearchResponse (withAnswer a) st in
  if negb (sc_analyzeStartTime sc =? 0) then
    let elapsedTime := clock st - sc_analyzeStartTime sc in
    let nextInterval := ceilDiv elapsedTime 1500 * 1500 in
    setTimeout ToGenerating (nextInterval - elapsedTime) st
  else st.

Definition updateQuotes (sc : Scope) (qs : list Quote) (st : Store) : Store :=
  let st := setSearchResponse (withQuotes qs) st in
  setSearchState (fun _ => input) st.

Definition updateDocs (sc : Scope) (docs : list SearchDanswerDocument)
  (st : Store) : Store :=
  let st :=
    if sc_agentic sc then
      let st := setTimeout ToReading 1500 st in
      setTimeout ToAnalyzing 4500 st
    else st in
  let st := setSearchResponse (withDocuments docs) st in
  let st :=
    if sc_disabledAgentic sc then
      let st := setIsFetching false st in
      setSearchState (fun _ => input) st
    else st in
  if (length docs =? 0)%nat then setSearchState (fun _ => input) st else st.

Definition updateSuggestedSearchType (sc : Scope) (t : string) (st : Store)
  : Store := setSearchResponse (withSuggestedSearchType t) st.

Definition updateSuggestedFlowType (sc : Scope) (t : string) (st : Store)
  : Store := setSearchResponse (withSuggestedFlowType t) st.

Definition updateSelectedDocIndices (sc : Scope) (docIndices : list Z)
  (st : Store) : Store := setSearchResponse (withSelectedDocIndices docIndices) st.

Definition updateError (sc : Scope) (e : string) (st : Store) : Store :=
  let st := resetInput true st in
  setSearchResponse (withError e) st.

(** [router.refresh()] does not touch the component's state. *)
Definition updateMessageAndThreadId (sc : Scope) (ids : Z * Z) (st : Store)
  : Store :=
  let '(mid, chat_session_id) := ids in
  let st := setSearchResponse (withMessageId mid) st in
  let st := setIsFetching false st in
  setSearchState (fun _ => input) st.

Definition updateDocumentRelevance (sc : Scope) (relevance : Relevance)
  (st : Store) : Store :=
  let st := setSearchResponse (withRelevance relevance) st in
  let st := setContentEnriched true st in
  let st := setIsFetching false st in
  if sc_disabledAgentic sc then setSearchState (fun _ => input) st
  else setSearchState (fun _ => analyzing) st.

Definition updateComments (sc : Scope) (c : string) (st : Store) : Store :=
  setComments (Some c) st.

Definition finishedSearching (sc : Scope) (_ : unit) (st : Store) : Store :=
  if sc_disabledAgentic sc then setSearchState (fun _ => input) st else st.

(** *** Timer callbacks

    A callback runs when the clock has reached its due time. *)
Definition runTimer (tm : Timer) (st : Store) : Store :=
  let st := setClock (Z.max (clock st) (due tm)) st in
  match action tm with
  | ToReading => setSearchState (fun s => newSearchState s reading) st
  | ToAnalyzing =>
      let st := setAnalyzeStartTime (clock st) st in
      let newState := newSearchState (phase st) analyzing in
      let st :=
        if searchState_eqb newState analyzing
        then setAnalyzeStartTime (clock st) st else st in
      setSearchState (fun _ => newState) st
  | ToGenerating => setSearchState (fun s => newSearchState s generating) st
  end.

(** Timers in firing order: by due time, first scheduled first. *)
Fixpoint insertTimer (tm : Timer) (l : list Timer) : list Timer :=
  match l with
  | [] => [tm]
  | x :: r => if due tm <? due x then tm :: l else x :: insertTimer tm r
  end.

Definition firingOrder (l : list Timer) : list Timer :=
  fold_left (fun acc tm => insertTimer tm acc) l [].

(** Let wall-clock time reach [t]: every timer due by then fires (no
    callback schedules a further timer), the others stay queued. *)
Definition advanceTo (t : Z) (st : Store) : Store :=
  let dueNow := filter (fun tm => due tm <= t) (timers st) in
  let later := filter (fun tm => ~ due tm <= t) (timers st) in
  let st := setTimers later st in
  let st := fold_left (fun s tm => runTimer tm s) (firingOrder dueNow) st in
  setClock (Z.max (clock st) t) st.

(** ** Cancellation *)

(** Modelled from the spec: [CancellationToken] lives in
    [lib/search/cancellable].  A token owns a boolean flag, initially
    false, that [cancel()] sets.  Tokens are objects shared by reference:
    token [i] is cell [i] of [tokens]. *)
Definition newCancellationToken (st : Store) : nat * Store :=
  (length (tokens st), setTokens (tokens st ++ [false]) st).

Definition cancel (tok : nat) (st : Store) : Store :=
  setTokens (<[tok := true]> (tokens st)) st.

Definition isCancelled (tok : nat) (st : Store) : bool :=
  match tokens st !! tok with Some b => b | None => false end.

(** Modelled from the spec: [cancellable] lives in
    [lib/search/cancellable].  It wraps [fn] so that the call does nothing
    once the token is marked cancelled, and is [fn] otherwise. *)
Definition cancellable {A : Type} (cancellationToken : nat)
  (fn : A -> Store -> Store) : A -> Store -> Store :=
  fun args st => if isCancelled cancellationToken st then st else fn args st.

(** ** Stream consumer *)

(** The events of the backend stream that [onSearch] binds a callback
    for.  ([updateDocStatus] is bound to [updateMessageAndThreadId] as
    well and adds no case.) *)
Inductive StreamEvent : Set :=
| AnswerPiece (a : string)
| QuotesEv (qs : list Quote)
| DocsEv (docs : list SearchDanswerDocument)
| SuggestedSearchTypeEv (t : string)
| SuggestedFlowTypeEv (t : string)
| SelectedDocIndicesEv (docIndices : list Z)
| ErrorEv (e : string)
| MessageAndThreadIdEv (mid chat_session_id : Z)
| DocumentRelevanceEv (relevance : Relevance)
| CommentsEv (c : string)
| FinishedEv.

(** The handler [onSearch] passes for each event, before wrapping. *)
Definition handler (sc : Scope) (ev : StreamEvent) : Store -> Store :=
  match ev with
  | AnswerPiece a => updateCurrentAnswer sc a
  | QuotesEv qs => updateQuotes sc qs
  | DocsEv docs => updateDocs sc docs
  | SuggestedSearchTypeEv t => updateSuggestedSearchType sc t
  | SuggestedFlowTypeEv t => updateSuggestedFlowType sc t
  | SelectedDocIndicesEv l => updateSelectedDocIndices sc l
  | ErrorEv e => updateError sc e
  | MessageAndThreadIdEv m c => updateMessageAndThreadId sc (m, c)
  | DocumentRelevanceEv r => updateDocumentRelevance sc r
  | CommentsEv c => updateComments sc c
  | FinishedEv => finishedSearching sc tt
  end.

(** What the stream of request [rq] does with an event: it calls the
    callback of [searchFnArgs], which is the handler wrapped by
    [cancellable] with the request's token. *)
Definition dispatch (rq : Request) (ev : StreamEvent) : Store -> Store :=
  match ev with
  | AnswerPiece a =>
      cancellable (req_token rq) (updateCurrentAnswer (req_scope rq)) a
  | QuotesEv qs => cancellable (req_token rq) (updateQuotes (req_scope rq)) qs
  | DocsEv docs => cancellable (req_token rq) (updateDocs (req_scope rq)) docs
  | SuggestedSearchTypeEv t =>
      cancellable (req_token rq) (updateSuggestedSearchType (req_scope rq)) t
  | SuggestedFlowTypeEv t =>
      cancellable (req_token rq) (updateSuggestedFlowType (req_scope rq)) t
  | SelectedDocIndicesEv l =>
      cancellable (req_token rq) (updateSelectedDocIndices (req_scope rq)) l
  | ErrorEv e => cancellable (req_token rq) (updateError (req_scope rq)) e
  | MessageAndThreadIdEv m c =>
      cancellable (req_token rq) (updateMessageAndThreadId (req_scope rq)) (m, c)
  | DocumentRelevanceEv r =>
      cancellable (req_token rq) (updateDocumentRelevance (req_scope rq)) r
  | CommentsEv c => cancellable (req_token rq) (updateComments (req_scope rq)) c
  | FinishedEv => cancellable (req_token rq) (finishedSearching (req_scope rq)) tt
  end.

(** [overrideMessage || query]: an absent or empty override is falsy. *)
Definition effectiveQuery (sc : Scope) (ov : SearchRequestOverrides) : string :=
  match overrideMessage ov with
  | Some m => if String.eqb m "" then sc_query sc else m
  | None => sc_query sc
  end.

(** [onSearch].  The result carries the request handed to
    [searchRequestStreamed], or [None] after the early return.  The reset
    of [validQuestionResponse], a cell nothing here reads, is left out. *)
Definition onSearch (sc : Scope) (ov : SearchRequestOverrides) (st : Store)
  : Store * option Request :=
  if String.eqb (effectiveQuery sc ov) "" then (st, None)
  else
    let st := setAgenticResults (ov_agentic ov) st in
    let st := resetInput false st in
    let st := setContentEnriched false st in
    let st :=
      match lastSearchCancellationToken st with
      | Some tok => cancel tok st
      | None => st
      end in
    let '(tok, st) := newCancellationToken st in
    let st := setLastToken (Some tok) st in
    let st := setIsFetching true st in
    let st := setSearchResponse (fun _ => initialSearchResponse) st in
    let rq := mkRequest (effectiveQuery sc ov) (ov_agentic ov) tok sc in
    (setRequests (requests st ++ [rq]) st, Some rq).

(** ** Runs of the component

    A run is a list of timed steps.  The user types a query, the user
    submits (the [onSearch] of the latest render is called), or the
    stream of the [i]-th request delivers an event. *)
Inductive Step : Set :=
| TypeQuery (q : string)
| Submit (ov : SearchRequestOverrides)
| Deliver (i : nat) (ev : StreamEvent)
| Idle.

Definition step (t : Z) (s : Step) (st : Store) : Store :=
  let st := advanceTo t st in
  match s with
  | TypeQuery q => setQuery q st
  | Submit ov => fst (onSearch (scopeOf st) ov st)
  | Deliver i ev =>
      match requests st !! i with
      | Some rq => dispatch rq ev st
      | None => st
      end
  | Idle => st
  end.

Definition run (steps : list (Z * Step)) (st : Store) : Store :=
  fold_left (fun s ts => step (fst ts) (snd ts) s) steps st.

(** ** Result display: quote de-duplication *)

(** One iteration of [quotes.forEach]: the pair is ([dedupedQuotes],
    [seen]). *)
Definition dedupStep (acc : list Quote * gset string) (quote : Quote)
  : list Quote * gset string :=
  if decide (document_id quote ∈ acc.2) then acc
  else ((acc.1 ++ [quote])%list, acc.2 ∪ {[document_id quote]}).

Definition dedupedQuotes (qs : option (list Quote)) : list Quote :=
  match qs with
  | Some l => (fold_left dedupStep l ([], ∅)).1
  | None => []
  end.

(** The claim's wording: keep the quote at position [i] exactly when no
    earlier position holds the same document id. *)
Definition firstOccurrences (l : list Quote) : list Quote :=
  mjoin (imap (fun i q =>
                 if decide (document_id q ∈ document_id <$> take i l)
                 then [] else [q]) l).

(** ** Vocabulary of the properties *)

(** The fields of a [SearchResponse] and the value each can hold. *)
Inductive Field : Set :=
| FAnswer | FQuotes | FDocuments | FSuggestedSearchType | FSuggestedFlowType
| FSelectedDocIndices | FError | FMessageId | FRelevance.

#[global] Instance Field_eq_dec : EqDecision Field.
Proof. solve_decision. Defined.

Inductive Payload : Set :=
| PText (v : option string)
| PQuotes (v : option (list Quote))
| PDocuments (v : option (list SearchDanswerDocument))
| PIndices (v : option (list Z))
| PNumber (v : option Z)
| PRelevance (v : option Relevance).

Definition readField (f : Field) (p : SearchResponse) : Payload :=
  match f with
  | FAnswer => PText (answer p)
  | FQuotes => PQuotes (quotes p)
  | FDocuments => PDocuments (documents p)
  | FSuggestedSearchType => PText (suggestedSearchType p)
  | FSuggestedFlowType => PText (suggestedFlowType p)
  | FSelectedDocIndices => PIndices (selectedDocIndices p)
  | FError => PText (error p)
  | FMessageId => PNumber (messageId p)
  | FRelevance => PRelevance (additional_relevance p)
  end.

(** The field an event sets and the value it carries; comments and the
    end of the stream carry nothing for the response. *)
Definition writes (ev : StreamEvent) : option (Field * Payload) :=
  match ev with
  | AnswerPiece a => Some (FAnswer, PText (Some a))
  | QuotesEv qs => Some (FQuotes, PQuotes (Some qs))
  | DocsEv docs => Some (FDocuments, PDocuments (Some docs))
  | SuggestedSearchTypeEv t => Some (FSuggestedSearchType, PText (Some t))
  | SuggestedFlowTypeEv t => Some (FSuggestedFlowType, PText (Some t))
  | SelectedDocIndicesEv l => Some (FSelectedDocIndices, PIndices (Some l))
  | ErrorEv e => Some (FError, PText (Some e))
  | MessageAndThreadIdEv m _ => Some (FMessageId, PNumber (Some m))
  | DocumentRelevanceEv r => Some (FRelevance, PRelevance (Some r))
  | CommentsEv _ => None
  | FinishedEv => None
  end.

Definition writesTo (f : Field) (ev : StreamEvent) : option Payload :=
  match writes ev with
  | Some (f', v) => if decide (f' = f) then Some v else None
  | None => None
  end.

(** The claim's wording: the last value set for field [f] by a sequence
    of events, if any. *)
Definition lastWritten (f : Field) (evs : list StreamEvent) : option Payload :=
  last (omap (writesTo f) evs).

(** A sequence of updates, each run by the handler of some render. *)
Definition deliverAll (evs : list (Scope * StreamEvent)) (st : Store) : Store :=
  fold_left (fun s e => handler e.1 e.2 s) evs st.

(** The ref points to a token that was created. *)
Definition tokenRefValid (st : Store) : Prop :=
  match lastSearchCancellationToken st with
  | Some tok => (tok < length (tokens st))%nat
  | None => True
  end.

(** A terminal event of a query: an error, the completion events (quotes
    complete, message id), or an empty result set. *)
Definition terminal (ev : StreamEvent) : bool :=
  match ev with
  | ErrorEv _ | QuotesEv _ | MessageAndThreadIdEv _ _ => true
  | DocsEv docs => (length docs =? 0)%nat
  | _ => false
  end.

(** The phases some code path assigns. *)
Definition assigned (p : searchState) : bool :=
  match p with
  | summarizing | citing => false
  | _ => true
  end.

(** ** Assistant editor *)

Module AssistantEditor.

(** A prompt as typed into the form: its UTF-16 code units. *)
Definition isWhiteSpace (c : N) : bool :=
  (* WhiteSpace and LineTerminator of ECMAScript, which [trim] strips *)
  ((9 <=? c) && (c <=? 13) || (c =? 32) || (c =? 160) || (c =? 5760)
   || (8192 <=? c) && (c <=? 8202) || (c =? 8232) || (c =? 8233)
   || (c =? 8239) || (c =? 8287) || (c =? 12288) || (c =? 65279))%N.

Fixpoint trimStart (s : list N) : list N :=
  match s with
  | c :: r => if isWhiteSpace c then trimStart r else s
  | [] => []
  end.

(** [String.prototype.trim]. *)
Definition trim (s : list N) : list N := rev (trimStart (rev (trimStart s))).

(** [values.p && values.p.trim().length > 0], as a truth value; an absent
    or empty prompt is falsy. *)
Definition promptSpecified (p : option (list N)) : bool :=
  match p with
  | Some s =>
      match s with
      | [] => false
      | _ => (0 <? length (trim s))%nat
      end
  | None => false
  end.

Record PromptValues : Set := mkPromptValues {
  system_prompt : option (list N);
  task_prompt : option (list N)
}.

(** A validation error: the path it is attached to and its message. *)
Record ValidationError : Set := mkValidationError {
  path : string;
  message : string
}.

Definition promptMessage : string :=
  "Must provide either System Prompt or Additional Instructions".

(** The function of the ["system-prompt-or-task-prompt"] test: [None] is
    [return true], [Some e] is [return this.createError(e)]. *)
Definition systemPromptOrTaskPrompt (values : PromptValues)
  : option ValidationError :=
  let systemPromptSpecified := promptSpecified (system_prompt values) in
  let taskPromptSpecified := promptSpecified (task_prompt values) in
  if systemPromptSpecified || taskPromptSpecified then None
  else Some (mkValidationError "system_prompt" promptMessage).

(** The errors the test adds to the validation result. *)
Definition promptErrors (values : PromptValues) : list ValidationError :=
  match systemPromptOrTaskPrompt values with
  | Some e => [e]
  | None => []
  end.

(** Modelled from the spec: the form library is not part of the
    repository; validation errors are caught before submission and block
    it.  [others] are the errors of the remaining rules of the schema;
    the result tells whether the submit handler, which makes the API
    calls, is run. *)
Definition submitHandlerRuns (others : list ValidationError)
  (values : PromptValues) : bool :=
  match (others ++ promptErrors values)%list with
  | [] => true
  | _ => false
  end.

(** A value of the [num_chunks] form field: [null] initially or after the
    search tool is toggled, a JSON number from an existing assistant, or
    the text typed into the field ([setFieldValue("num_chunks", value)]
    with [value = e.target.value]). *)
Inductive FieldValue : Set :=
| VNull
| VNumber (n : Z)
| VString (s : string).

(** JavaScript truthiness of such a value. *)
Definition truthy (v : FieldValue) : bool :=
  match v with
  | VNull => false
  | VNumber n => negb (n =? 0)
  | VString s => negb (String.eqb s "")
  end.

(** The guard of the field's [onChange]: the empty text or decimal digits
    only ([/^[0-9]+$/]). *)
Definition isDigit (c : Ascii.ascii) : bool :=
  (48 <=? Ascii.nat_of_ascii c)%nat && (Ascii.nat_of_ascii c <=? 57)%nat.

Definition fieldAccepts (value : string) : bool :=
  String.eqb value "" || forallb isDigit (list_ascii_of_string value).

(** The number a text of decimal digits denotes. *)
Definition digitsValue (s : string) : Z :=
  fold_left (fun acc c => 10 * acc + (Z.of_nat (Ascii.nat_of_ascii c) - 48))
            (list_ascii_of_string s) 0.

(** The chunk count a submitted value denotes, when it denotes one. *)
Definition chunkCount (v : FieldValue) : option Z :=
  match v with
  | VNull => None
  | VNumber n => Some n
  | VString s =>
      if negb (String.eqb s "") && forallb isDigit (list_ascii_of_string s)
      then Some (digitsValue s) else None
  end.

(** [enabledTools]: the keys of [enabled_tools_map] whose value is true.
    [Object.keys] lists the integer keys of an object in ascending
    order, and [filter] keeps that order. *)
Definition enabledTools (enabled_tools_map : gmap nat bool) : list nat :=
  filter (fun toolId => enabled_tools_map !! toolId = Some true)
         (merge_sort Nat.le (map_to_list enabled_tools_map).*1).

(** [searchTool ? enabledTools.includes(searchTool.id) : false]. *)
Definition searchToolEnabled (searchTool : option nat)
  (enabled_tools_map : gmap nat bool) : bool :=
  match searchTool with
  | Some id => bool_decide (id ∈ enabledTools enabled_tools_map)
  | None => false
  end.

(** [searchToolEnabled ? values.num_chunks || 10 : 0]. *)
Definition numChunks (searchToolOn : bool) (num_chunks : FieldValue)
  : FieldValue :=
  if searchToolOn then (if truthy num_chunks then num_chunks else VNumber 10)
  else VNumber 0.

(** The claim's wording: a prompt that is absent, empty or made of white
    space only. *)
Definition blank (p : option (list N)) : Prop :=
  match p with
  | Some s => Forall (fun c => isWhiteSpace c = true) s
  | None => True
  end.

End AssistantEditor.

(** ** Further code of the search section *)

(** Modelled from the spec: [SearchSession] and its messages are declared
    in [app/chat/interfaces]; a stored session is an ordered message
    list, each message tagged with its type, with the documents found. *)
Record Message : Set := mkMessage {
  message_type : string;
  message : string
}.

Record SearchSession : Set := mkSearchSession {
  messages : list Message;
  session_documents : list SearchDanswerDocument
}.

(** [extractFirstMessageByType]; [None] is [null], also for the session
    ([chatSession?.messages]). *)
Definition extractFirstMessageByType (chatSession : option SearchSession)
  (messageType : string) : option string :=
  match chatSession with
  | Some s =>
      match List.find (fun msg => String.eqb (message_type msg) messageType)
                      (messages s) with
      | Some userMessage => Some (message userMessage)
      | None => None
      end
  | None => None
  end.

(** [s || d] for a string or [null]: the empty string is falsy. *)
Definition orElse (s : option string) (d : string) : string :=
  match s with
  | Some x => if String.eqb x "" then d else x
  | None => d
  end.

(** The state updates of [initialSessionFetch] once the session has been
    fetched.  [searchId] is the value of
    [existingSearchIdRaw ? parseInt(existingSearchIdRaw) : null]. *)
Definition initialSessionFetch (searchSession : option SearchSession)
  (searchId : option Z) (st : Store) : Store :=
  let userMessage := extractFirstMessageByType searchSession "user" in
  let assistantMessage := extractFirstMessageByType searchSession "assistant" in
  match userMessage, searchSession with
  | Some u, Some s =>
      if String.eqb u "" then st
      else
        let st := setQuery u st in
        let danswerDocs :=
          mkSearchResponse
            (Some (orElse assistantMessage "Search response not found"))
            None (Some (session_documents s)) None None None None searchId
            None in
        let st := setIsFetching false st in
        let st := setFirstSearch false st in
        let st := setSearchResponse (fun _ => danswerDocs) st in
        setContentEnriched true st
  | _, _ => st
  end.

(** The test that mounts [SearchResultsDisplay]:
    [!(agenticResults && isFetching) || disabledAgentic]. *)
Definition resultsDisplayed (st : Store) : bool :=
  negb (match agenticResults st with Some b => b | None => false end
        && isFetching st)
  || disabledAgentic st.

(** The streams and tokens of a store in step: request [i] was given
    token [i], the ref holds the last token created, and that token alone
    is not cancelled. *)
Definition streamsInStep (st : Store) : Prop :=
  length (requests st) = length (tokens st)
  ∧ (∀ i rq, requests st !! i = Some rq → req_token rq = i)
  ∧ lastSearchCancellationToken st =
      match length (tokens st) with
      | O => None
      | S n => Some n
      end
  ∧ (∀ i b, tokens st !! i = Some b →
            b = bool_decide (S i ≠ length (tokens st))).

(** Steps of a run that come from superseded streams only: deliveries of
    streams older than the [n]-th request, and the passing of time. *)
Definition fromStreamsBefore (n : nat) (s : Z * Step) : Prop :=
  match s.2 with
  | Deliver i _ => (i < n)%nat
  | Idle => True
  | _ => False
  end.

(** A store with narration off: nothing queued, no analysis start, and
    every stream opened from a render of such a store. *)
Definition narrationOff (disabled : bool) (st : Store) : Prop :=
  agentic st = false
  ∧ disabledAgentic st = disabled
  ∧ analyzeStartTime st = 0
  ∧ timers st = []
  ∧ (∀ rq, rq ∈ requests st →
           sc_agentic (req_scope rq) = false
           ∧ sc_disabledAgentic (req_scope rq) = disabled
           ∧ sc_analyzeStartTime (req_scope rq) = 0).

(** The events whose handler ends the fetch ([setIsFetching(false)]). *)
Definition stopsFetching (sc : Scope) (ev : StreamEvent) : bool :=
  match ev with
  | MessageAndThreadIdEv _ _ | DocumentRelevanceEv _ => true
  | DocsEv _ => sc_disabledAgentic sc
  | _ => false
  end.

(** Before any query nothing is queued and no analysis start is
    recorded, and the first stream was opened from such a render. *)
Definition firstStreamQuiet (st : Store) : Prop :=
  (requests st = [] → analyzeStartTime st = 0 ∧ timers st = [])
  ∧ (∀ rq, requests st !! 0%nat = Some rq →
           sc_analyzeStartTime (req_scope rq) = 0).

(** ** Further code of the assistant editor *)

Module EditorForm.

Import AssistantEditor.

(** Modelled from the spec: [ToolSnapshot] is declared in
    [lib/tools/interfaces]; the code in scope reads its [id], its [name]
    and its [in_code_tool_id], a string for a built-in tool and [null]
    ([None]) for a custom one. *)
Record ToolSnapshot : Set := mkTool {
  id : nat;
  name : string;
  in_code_tool_id : option string
}.

(** Modelled from the spec: [FullLLMProvider] is declared in
    [admin/models/llm/interfaces]; the code in scope reads the display
    [name] and the [provider] of each. *)
Record FullLLMProvider : Set := mkProvider {
  provider_name : string;
  provider : string
}.

Definition hasCode (code : string) (tool : ToolSnapshot) : bool :=
  bool_decide (in_code_tool_id tool = Some code).

Definition findSearchTool (tools : list ToolSnapshot) : option ToolSnapshot :=
  List.find (hasCode "SearchTool") tools.

Definition findImageGenerationTool (tools : list ToolSnapshot)
  : option ToolSnapshot :=
  List.find (hasCode "ImageGenerationTool") tools.

Definition findInternetSearchTool (tools : list ToolSnapshot)
  : option ToolSnapshot :=
  List.find (hasCode "InternetSearchTool") tools.

(** [llmProviders.some((provider) => provider.provider === "openai")]. *)
Definition providerSupportingImageGenerationExists
  (llmProviders : list FullLLMProvider) : bool :=
  existsb (fun p => String.eqb (provider p) "openai") llmProviders.

Definition imageGenerationTool (llmProviders : list FullLLMProvider)
  (tools : list ToolSnapshot) : option ToolSnapshot :=
  if providerSupportingImageGenerationExists llmProviders
  then findImageGenerationTool tools else None.

(** [tool.in_code_tool_id !== found?.in_code_tool_id]: when nothing was
    found the right-hand side is [undefined], which no [in_code_tool_id]
    is. *)
Definition differsFrom (found : option ToolSnapshot) (tool : ToolSnapshot)
  : bool :=
  match found with
  | Some f => negb (bool_decide (in_code_tool_id tool = in_code_tool_id f))
  | None => true
  end.

Definition customTools (llmProviders : list FullLLMProvider)
  (tools : list ToolSnapshot) : list ToolSnapshot :=
  List.filter
    (fun tool =>
       differsFrom (findSearchTool tools) tool
       && differsFrom (imageGenerationTool llmProviders tools) tool
       && differsFrom (findInternetSearchTool tools) tool)
    tools.

(** [...(tool ? [tool] : [])]. *)
Definition optional (tool : option ToolSnapshot) : list ToolSnapshot :=
  match tool with
  | Some t => [t]
  | None => []
  end.

Definition availableTools (llmProviders : list FullLLMProvider)
  (tools : list ToolSnapshot) : list ToolSnapshot :=
  (customTools llmProviders tools
   ++ optional (findSearchTool tools)
   ++ optional (imageGenerationTool llmProviders tools)
   ++ optional (findInternetSearchTool tools))%list.

(** [enabledToolsMap]: one entry per available tool, true when the
    assistant being edited has the tool. *)
Definition enabledToolsMap (personaCurrentToolIds : list nat)
  (available : list ToolSnapshot) : gmap nat bool :=
  fold_left
    (fun m tool => <[id tool := bool_decide (id tool ∈ personaCurrentToolIds)]> m)
    available ∅.

(** [toggleToolInValues]: [!enabled_tools_map[toolId]], a missing entry
    being falsy. *)
Definition toggleToolInValues (enabled_tools_map : gmap nat bool)
  (toolId : nat) : gmap nat bool :=
  <[toolId := negb (default false (enabled_tools_map !! toolId))]>
    enabled_tools_map.

(** [searchToolEnabled()] of the render function:
    [searchTool && values.enabled_tools_map[searchTool.id] ? true : false]. *)
Definition searchToolChecked (searchTool : option nat)
  (enabled_tools_map : gmap nat bool) : bool :=
  match searchTool with
  | Some i => default false (enabled_tools_map !! i)
  | None => false
  end.

(** The two form values the search tool checkbox touches. *)
Record ToolValues : Set := mkToolValues {
  enabled_tools_map : gmap nat bool;
  num_chunks : FieldValue
}.

(** [onChange] of the search tool checkbox. *)
Definition searchToolChange (searchToolId : nat) (values : ToolValues)
  : ToolValues :=
  mkToolValues (toggleToolInValues (enabled_tools_map values) searchToolId)
               VNull.

(** [onChange] of the chunk count field: the text is stored when the
    guard accepts it and dropped otherwise. *)
Definition numChunksChange (value : string) (values : ToolValues)
  : ToolValues :=
  if fieldAccepts value
  then mkToolValues (enabled_tools_map values) (VString value)
  else values.

(** The [num_chunks] of the payload, as the submit handler computes it. *)
Definition submittedNumChunks (searchTool : option nat) (values : ToolValues)
  : FieldValue :=
  numChunks (searchToolEnabled searchTool (enabled_tools_map values))
            (num_chunks values).

(** The [tool_ids] of the payload.  [supportsImageInput] is the result of
    [checkLLMSupportsImageInput], a function of [lib/llm/utils], for the
    provider and model the form selects. *)
Definition submittedToolIds (imageTool : option nat)
  (supportsImageInput : bool) (enabled_tools_map : gmap nat bool)
  : list nat :=
  let enabled := enabledTools enabled_tools_map in
  let imageGenerationToolEnabled :=
    match imageTool with
    | Some i => bool_decide (i ∈ enabled)
    | None => false
    end in
  if imageGenerationToolEnabled then
    if negb supportsImageInput then
      match imageTool with
      | Some i => filter (fun toolId => toolId ≠ i) enabled
      | None => enabled
      end
    else enabled
  else enabled.

(** The document set chips: [indexOf], then Formik's [remove(ind)] or
    [push(id)]. *)
Definition toggleDocumentSet (document_set_ids : list nat) (d : nat)
  : list nat :=
  match list_find (fun x => x = d) document_set_ids with
  | Some (ind, _) => delete ind document_set_ids
  | None => (document_set_ids ++ [d])%list
  end.

(** The user group bubbles: [includes], then [filter] or a spread. *)
Definition toggleGroup (groups : list nat) (g : nat) : list nat :=
  if bool_decide (g ∈ groups) then filter (fun i => i ≠ g) groups
  else (groups ++ [g])%list.

(** [values.is_public ? [] : values.groups]. *)
Definition submittedGroups (is_public : bool) (groups : list nat) : list nat :=
  if is_public then [] else groups.

(** The LLM override fields; [None] is [null]. *)
Record LLMValues : Set := mkLLMValues {
  llm_model_provider_override : option string;
  llm_model_version_override : option string
}.

(** [onSelect] of the provider selector. *)
Definition selectProvider (selected : option string) (values : LLMValues)
  : LLMValues :=
  let version :=
    if bool_decide (selected ≠ llm_model_provider_override values) then None
    else llm_model_version_override values in
  mkLLMValues selected version.

(** Truthiness of a string or [null]. *)
Definition present (s : option string) : bool :=
  match s with
  | Some x => negb (String.eqb x "")
  | None => false
  end.

(** The two early returns of the submit handler: the popup shown, or
    [None] when the handler goes on to the API calls. *)
Definition submitRefusal (finalPromptError : string) (values : LLMValues)
  : option string :=
  if negb (String.eqb finalPromptError "") then
    Some "Cannot submit while there are errors in the form"
  else if present (llm_model_provider_override values)
          && negb (present (llm_model_version_override values)) then
    Some "Must select a model if a non-default LLM provider is chosen."
  else None.

(** A response of the backend as the handler reads it: [ok] and the body
    [text()]. *)
Record Response : Set := mkResponse { ok : bool; text : string }.

(** The [error] variable after the three tests; [None] is [null]. *)
Definition submitError (promptResponse : Response)
  (personaResponse : option Response) : option string :=
  let error := if negb (ok promptResponse) then Some (text promptResponse)
               else None in
  match personaResponse with
  | None => Some "Failed to create Assistant - no response received"
  | Some r => if negb (ok r) then Some (text r) else error
  end.

(** What the handler does after the API calls.  A Fetch body can be read
    once: [json()] on a response whose [text()] has been awaited rejects,
    and nothing after it in the handler runs. *)
Inductive Outcome : Set :=
| Popup (message : string)  (* error popup, the form stays editable *)
| ReadsAssistant            (* [json()] reads the unread body of the
                               assistant response; the branch goes on
                               to [router.push] with what it yields *)
| JsonRejects.              (* [json()] on a body already read: the
                               handler throws, no popup, no navigation *)

(** [if (error || !personaResponse) ... else ...].  In the [else] branch
    the body of [personaResponse] has been read exactly when the response
    was not ok. *)
Definition submitOutcome (promptResponse : Response)
  (personaResponse : option Response) : Outcome :=
  let error := submitError promptResponse personaResponse in
  match personaResponse with
  | None => Popup ("Failed to create Assistant - " ++ default "null" error)
  | Some r =>
      if present error then
        Popup ("Failed to create Assistant - " ++ default "null" error)
      else if negb (ok r) then JsonRejects
      else ReadsAssistant
  end.

End EditorForm.

(** ** API key form *)

Module ApiKeyForm.

(** Modelled from the spec: [APIKey] is declared in the form's [types];
    the code in scope reads its id, its optional name and its role. *)
Record APIKey : Set := mkAPIKey {
  api_key_id : Z;
  api_key_name : option string;
  api_key_role : string
}.

Record Values : Set := mkValues { name : string; is_admin : bool }.

(** [initialValues]; [None] is a form that creates a key. *)
Definition initialValues (apiKey : option APIKey) : Values :=
  mkValues
    (match apiKey with
     | Some k => orElse (api_key_name k) ""
     | None => ""
     end)
    (match apiKey with
     | Some k => String.eqb (api_key_role k) "admin"
     | None => false
     end).

(** [values.is_admin ? "admin" : "basic"]. *)
Definition role (values : Values) : string :=
  if is_admin values then "admin" else "basic".

(** The payload: the form values and the role. *)
Definition payload (values : Values) : string * bool * string :=
  (name values, is_admin values, role values).

End ApiKeyForm.

(** * Properties *)

(** Case analysis on the tests of a handler, and the handlers to unfold. *)
Ltac case_ifs :=
  repeat match goal with
         | |- context [if ?b then _ else _] => destruct b
         end.

Ltac unfold_handlers :=
  unfold updateCurrentAnswer, updateQuotes, updateDocs,
    updateSuggestedSearchType, updateSuggestedFlowType,
    updateSelectedDocIndices, updateError, updateMessageAndThreadId,
    updateDocumentRelevance, updateComments, finishedSearching.

(** ** Quote de-duplication *)

Section Dedup.

Implicit Types (l : list Quote) (q : Quote).

Lemma firstOccurrences_snoc l q :
  firstOccurrences (l ++ [q]) =
  (firstOccurrences l ++
     if decide (document_id q ∈ document_id <$> l) then [] else [q])%list.
Proof.
  unfold firstOccurrences.
  rewrite imap_app, join_app. f_equal.
  - f_equal. apply imap_ext. intros i x Hi.
    apply lookup_lt_Some in Hi.
    rewrite take_app_le by lia. reflexivity.
  - cbn. rewrite Nat.add_0_r, take_app_length, app_nil_r. reflexivity.
Qed.

(** The loop invariant of [quotes.forEach]: the accumulator holds the
    first occurrences of the prefix read so far and [seen] its ids. *)
Lemma dedup_fold l :
  fold_left dedupStep l ([], ∅) =
  (firstOccurrences l, list_to_set (document_id <$> l)).
Proof.
  induction l as [|q l IH] using rev_ind; [reflexivity|].
  rewrite fold_left_app, IH, firstOccurrences_snoc. cbn.
  unfold dedupStep; cbn.
  rewrite fmap_app, list_to_set_app_L. cbn.
  destruct (decide (document_id q ∈ document_id <$> l)) as [Hin|Hnin].
  - rewrite decide_True by (apply elem_of_list_to_set; exact Hin).
    rewrite app_nil_r. f_equal. set_solver.
  - rewrite decide_False by (rewrite elem_of_list_to_set; exact Hnin).
    f_equal. set_solver.
Qed.

Lemma firstOccurrences_ids l (id : string) :
  id ∈ document_id <$> firstOccurrences l ↔ id ∈ document_id <$> l.
Proof.
  induction l as [|q l IH] using rev_ind; [reflexivity|].
  rewrite firstOccurrences_snoc, !fmap_app, !elem_of_app, IH.
  destruct (decide (document_id q ∈ document_id <$> l)); cbn; set_solver.
Qed.

Lemma firstOccurrences_NoDup l :
  NoDup (document_id <$> firstOccurrences l).
Proof.
  induction l as [|q l IH] using rev_ind; [constructor|].
  rewrite firstOccurrences_snoc, fmap_app.
  destruct (decide (document_id q ∈ document_id <$> l)) as [Hin|Hnin]; cbn.
  - rewrite app_nil_r. exact IH.
  - apply NoDup_app. split; [exact IH|]. split.
    + intros id Hid Hq. apply list_elem_of_singleton in Hq. subst id.
      apply Hnin, firstOccurrences_ids, Hid.
    + apply NoDup_singleton.
Qed.

Lemma firstOccurrences_sublist l : firstOccurrences l `sublist_of` l.
Proof.
  induction l as [|q l IH] using rev_ind; [constructor|].
  rewrite firstOccurrences_snoc. apply sublist_app; [exact IH|].
  destruct (decide _); [apply sublist_nil_l | reflexivity].
Qed.

(** A quote is displayed exactly when it stands at a position before
    which its document id does not occur. *)
Lemma firstOccurrences_elem l q :
  q ∈ firstOccurrences l ↔
  ∃ i, l !! i = Some q ∧ document_id q ∉ document_id <$> take i l.
Proof.
  induction l as [|x l IH] using rev_ind.
  - split; [intros H; inversion H | intros (i & Hi & _); inversion Hi].
  - rewrite firstOccurrences_snoc, elem_of_app, IH. split.
    + intros [(i & Hi & Hn) | Hq].
      * exists i. pose proof (lookup_lt_Some _ _ _ Hi).
        rewrite lookup_app_l, take_app_le by lia. done.
      * destruct (decide (document_id x ∈ document_id <$> l)) as [|Hn];
          [inversion Hq|].
        apply list_elem_of_singleton in Hq. subst q.
        exists (length l).
        rewrite take_app_length, list_lookup_middle by done. done.
    + intros (i & Hi & Hn).
      destruct (decide (i < length l)%nat) as [Hlt|Hge].
      * left. exists i.
        rewrite lookup_app_l in Hi by lia.
        rewrite take_app_le in Hn by lia. done.
      * right. apply lookup_lt_Some in Hi as Hlen.
        rewrite length_app in Hlen. cbn in Hlen.
        assert (i = length l) as -> by lia.
        rewrite list_lookup_middle in Hi by done.
        rewrite take_app_length in Hn.
        injection Hi as ->. rewrite decide_False by done.
        apply list_elem_of_singleton. done.
Qed.

End Dedup.

(** C6: for every quotes list the displayed sequence [dedupedQuotes]
    holds exactly the first occurrence of each document id, in first-seen
    order: it is the list of the quotes before which their id does not
    occur, it is a subsequence of the input, no id occurs twice in it and
    it has the ids of the input; absent quotes display nothing; and
    [a; b; a] (whatever the texts) de-duplicates to its first two
    quotes. *)
Theorem C6_dedupedQuotes_first_occurrences :
  (∀ l : list Quote,
      dedupedQuotes (Some l) = firstOccurrences l
      ∧ dedupedQuotes (Some l) `sublist_of` l
      ∧ NoDup (document_id <$> dedupedQuotes (Some l))
      ∧ (∀ id : string,
            id ∈ document_id <$> dedupedQuotes (Some l) ↔ id ∈ document_id <$> l)
      ∧ (∀ q : Quote,
            q ∈ dedupedQuotes (Some l) ↔
            ∃ i, l !! i = Some q ∧ document_id q ∉ document_id <$> take i l))
  ∧ dedupedQuotes None = []
  ∧ (∀ t1 m1 t2 m2 t3 m3 : string,
        dedupedQuotes
          (Some [mkQuote "a" t1 m1; mkQuote "b" t2 m2; mkQuote "a" t3 m3]) =
        [mkQuote "a" t1 m1; mkQuote "b" t2 m2]).
Proof.
  assert (Heq : ∀ l, dedupedQuotes (Some l) = firstOccurrences l)
    by (intros l; unfold dedupedQuotes; rewrite dedup_fold; reflexivity).
  split; [|split; [reflexivity|]].
  - intros l. rewrite Heq.
    split; [reflexivity|]. split; [apply firstOccurrences_sublist|].
    split; [apply firstOccurrences_NoDup|].
    split; [apply firstOccurrences_ids | apply firstOccurrences_elem].
  - intros. rewrite Heq. reflexivity.
Qed.

(** ** Session state store *)

Section StoreMerge.

Implicit Types (sc : Scope) (ev : StreamEvent) (st : Store) (f : Field).

(** What one update does to one field of the response. *)
Lemma handler_readField sc ev st f :
  readField f (searchResponse (handler sc ev st)) =
  default (readField f (searchResponse st)) (writesTo f ev).
Proof.
  destruct ev, f; unfold writesTo; cbn [writes];
    first [rewrite decide_True by done | rewrite decide_False by done | idtac];
    cbn;
    unfold_handlers; case_ifs; reflexivity.
Qed.

Lemma deliverAll_snoc (evs : list (Scope * StreamEvent)) sc ev st :
  deliverAll (evs ++ [(sc, ev)]) st = handler sc ev (deliverAll evs st).
Proof. unfold deliverAll. rewrite fold_left_app. reflexivity. Qed.

Lemma lastWritten_snoc f (evs : list StreamEvent) ev :
  lastWritten f (evs ++ [ev]) =
  match writesTo f ev with Some v => Some v | None => lastWritten f evs end.
Proof.
  unfold lastWritten. rewrite omap_app. cbn.
  destruct (writesTo f ev); cbn.
  - apply last_snoc.
  - rewrite app_nil_r. reflexivity.
Qed.

Lemma deliverAll_readField (evs : list (Scope * StreamEvent)) st f :
  readField f (searchResponse (deliverAll evs st)) =
  default (readField f (searchResponse st)) (lastWritten f evs.*2).
Proof.
  induction evs as [|[sc ev] evs IH] using rev_ind; [reflexivity|].
  rewrite deliverAll_snoc, handler_readField, fmap_app, IH.
  cbn [fmap list_fmap snd]. rewrite lastWritten_snoc.
  destruct (writesTo f ev); reflexivity.
Qed.

(** A response is determined by its nine fields. *)
Lemma readField_ext (p p' : SearchResponse) :
  (∀ f, readField f p = readField f p') → p = p'.
Proof.
  intros H.
  pose proof (H FAnswer) as H1. pose proof (H FQuotes) as H2.
  pose proof (H FDocuments) as H3. pose proof (H FSuggestedSearchType) as H4.
  pose proof (H FSuggestedFlowType) as H5.
  pose proof (H FSelectedDocIndices) as H6. pose proof (H FError) as H7.
  pose proof (H FMessageId) as H8. pose proof (H FRelevance) as H9.
  cbn in *. destruct p, p'; cbn in *. congruence.
Qed.

Lemma writesTo_other ev f f' v :
  writes ev = Some (f', v) → f' ≠ f → writesTo f ev = None.
Proof. unfold writesTo. intros -> Hne. rewrite decide_False; done. Qed.

End StoreMerge.

(** C2: for any sequence of update events, whatever render each handler
    comes from, every field of the resulting response holds the last value
    set for it (and, from the initial empty response, is absent when it
    was never set); an update sets its own field and leaves every other
    field as it was; updates of different fields commute on the response
    and repeating an update changes nothing. *)
Theorem C2_last_write_per_field :
  (∀ (evs : list (Scope * StreamEvent)) (st : Store) (f : Field),
      readField f (searchResponse (deliverAll evs st)) =
      default (readField f (searchResponse st)) (lastWritten f evs.*2))
  ∧ (∀ (evs : list (Scope * StreamEvent)) (st : Store) (f : Field),
        searchResponse st = initialSearchResponse →
        readField f (searchResponse (deliverAll evs st)) =
        default (readField f initialSearchResponse) (lastWritten f evs.*2))
  ∧ (∀ sc ev st f v,
        writes ev = Some (f, v) →
        readField f (searchResponse (handler sc ev st)) = v
        ∧ ∀ f', f' ≠ f →
            readField f' (searchResponse (handler sc ev st)) =
            readField f' (searchResponse st))
  ∧ (∀ sc ev st,
        writes ev = None →
        searchResponse (handler sc ev st) = searchResponse st)
  ∧ (∀ sc1 sc2 ev1 ev2 st,
        fst <$> writes ev1 ≠ fst <$> writes ev2 →
        searchResponse (handler sc2 ev2 (handler sc1 ev1 st)) =
        searchResponse (handler sc1 ev1 (handler sc2 ev2 st)))
  ∧ (∀ sc sc' ev st,
        searchResponse (handler sc' ev (handler sc ev st)) =
        searchResponse (handler sc ev st)).
Proof.
  split; [exact deliverAll_readField|].
  split; [intros evs st f <-; apply deliverAll_readField|].
  split.
  { intros sc ev st f v Hw. split.
    - rewrite handler_readField. unfold writesTo. rewrite Hw.
      rewrite decide_True by done. reflexivity.
    - intros f' Hne. rewrite handler_readField.
      rewrite (writesTo_other ev f' f v) by done. reflexivity. }
  split.
  { intros sc ev st Hw. apply readField_ext. intros f.
    rewrite handler_readField. unfold writesTo. rewrite Hw. reflexivity. }
  split.
  { intros sc1 sc2 ev1 ev2 st Hne. apply readField_ext. intros f.
    rewrite !handler_readField. unfold writesTo.
    destruct (writes ev1) as [[f1 v1]|], (writes ev2) as [[f2 v2]|];
      cbn in *; try reflexivity.
    destruct (decide (f1 = f)), (decide (f2 = f)); cbn; try reflexivity.
    congruence. }
  intros sc sc' ev st. apply readField_ext. intros f.
  rewrite !handler_readField.
  destruct (writesTo f ev); reflexivity.
Qed.

(** ** Phase tracker *)

Section Pacing.

Implicit Types (sc : Scope) (st s : Store) (tm : Timer).

Lemma ceilDiv_bounds (a b : Z) :
  0 < b → a ≤ ceilDiv a b * b < a + b.
Proof.
  intros Hb. unfold ceilDiv.
  pose proof (Z.div_mod (- a) b ltac:(lia)) as Hdm.
  pose proof (Z.mod_pos_bound (- a) b Hb) as Hr.
  nia.
Qed.

Lemma ceilDiv_least (a b k : Z) :
  0 < b → a ≤ k * b → ceilDiv a b ≤ k.
Proof.
  intros Hb Hk. pose proof (ceilDiv_bounds a b Hb). nia.
Qed.

Lemma newSearchState_input next : newSearchState input next = input.
Proof. reflexivity. Qed.

Lemma newSearchState_other cur next :
  cur ≠ input → newSearchState cur next = next.
Proof. destruct cur; [done | reflexivity..]. Qed.

Lemma runTimer_input tm s : phase s = input → phase (runTimer tm s) = input.
Proof.
  destruct s. cbn. intros ->. unfold runTimer.
  destruct (action tm); reflexivity.
Qed.

Lemma runTimer_phase tm s :
  phase s ≠ input →
  phase (runTimer tm s) =
  match action tm with
  | ToReading => reading | ToAnalyzing => analyzing | ToGenerating => generating
  end.
Proof.
  destruct s as [? ph]. cbn. intros H. unfold runTimer.
  destruct (action tm), ph; done.
Qed.

Lemma runTimers_input (l : list Timer) s :
  phase s = input → phase (fold_left (fun s tm => runTimer tm s) l s) = input.
Proof.
  revert s. induction l as [|tm l IH]; intros s H; [exact H|].
  cbn. apply IH, runTimer_input, H.
Qed.

Lemma advanceTo_input t s : phase s = input → phase (advanceTo t s) = input.
Proof.
  intros H. unfold advanceTo. cbn. apply runTimers_input. exact H.
Qed.

End Pacing.

(** The schedule of [updateCurrentAnswer] for the analysis start its
    closure holds: when that value is not 0 the guarded transition to
    "generating" is queued at that value + ceiling(elapsed / 1500) * 1500,
    the delay passed to [setTimeout] is between 0 and 1499 ms, and the
    transition yields "generating" unless the phase is "input".  Which
    value the closure holds in a run is settled below. *)
Theorem updateCurrentAnswer_schedule_for_held_start :
  (∀ (sc : Scope) (a : string) (st : Store),
      sc_analyzeStartTime sc ≠ 0 →
      let elapsed := clock st - sc_analyzeStartTime sc in
      let boundary := sc_analyzeStartTime sc + ceilDiv elapsed 1500 * 1500 in
      timers (updateCurrentAnswer sc a st) =
        (timers st ++ [mkTimer boundary ToGenerating])%list
      ∧ boundary = clock st + (ceilDiv elapsed 1500 * 1500 - elapsed)
      ∧ clock st ≤ boundary < clock st + 1500
      ∧ (∀ k : Z, clock st ≤ sc_analyzeStartTime sc + k * 1500 →
                  boundary ≤ sc_analyzeStartTime sc + k * 1500)
      ∧ phase (updateCurrentAnswer sc a st) = phase st
      ∧ (∀ s : Store, phase s ≠ input →
            phase (runTimer (mkTimer boundary ToGenerating) s) = generating))
  ∧ (∀ a : string,
        let sc := mkScope "q" true false 4500 in
        let st := setClock 5000 (setAnalyzeStartTime 4500
                    (setSearchState (fun _ => analyzing)
                       (initialStore true false))) in
        timers (updateCurrentAnswer sc a st) = [mkTimer 6000 ToGenerating]
        ∧ phase (advanceTo 5999 (updateCurrentAnswer sc a st)) = analyzing
        ∧ phase (advanceTo 6000 (updateCurrentAnswer sc a st)) = generating).
Proof.
  split.
  - intros sc a st Hrec elapsed boundary.
    assert (Hupd : updateCurrentAnswer sc a st =
                   setTimeout ToGenerating (ceilDiv elapsed 1500 * 1500 - elapsed)
                              (setSearchResponse (withAnswer a) st)).
    { unfold updateCurrentAnswer.
      destruct (Z.eqb_spec (sc_analyzeStartTime sc) 0) as [E|_]; [done|].
      reflexivity. }
    pose proof (ceilDiv_bounds elapsed 1500 ltac:(lia)) as Hb.
    split; [|split; [|split; [|split; [|split]]]].
    + rewrite Hupd. cbn. do 2 f_equal. subst boundary elapsed. cbn. f_equal. lia.
    + subst boundary elapsed. lia.
    + subst boundary elapsed. lia.
    + intros k Hk. subst boundary.
      pose proof (ceilDiv_least elapsed 1500 k ltac:(lia)) as Hl.
      subst elapsed. lia.
    + rewrite Hupd. reflexivity.
    + intros s Hs. rewrite runTimer_phase by exact Hs. reflexivity.
  - intros a. cbn zeta. split; [|split]; reflexivity.
Qed.

(** The schedule at a concrete arrival: held start 4500, clock 5000. *)
Lemma updateCurrentAnswer_schedule_at_5000 :
  timers (updateCurrentAnswer (mkScope "q" true false 4500) "token"
            (setClock 5000 (initialStore true false))) =
  [mkTimer (4500 + ceilDiv (5000 - 4500) 1500 * 1500) ToGenerating].
Proof.
  exact (proj1 (proj1 updateCurrentAnswer_schedule_for_held_start
                  (mkScope "q" true false 4500) "token"
                  (setClock 5000 (initialStore true false))
                  ltac:(cbn; lia))).
Defined.

(** Which analysis start a handler sees.  The callbacks of a stream are
    those of the render in which [onSearch] ran, so on the first query of
    a session they hold [analyzeStartTime = 0] throughout: the answer
    update of such a run queues no timer, although the store has recorded
    4500 by then. *)
Lemma first_query_answer_sees_initial_analysis_start :
  analyzeStartTime
    (run [(0, TypeQuery "q"); (0, Submit noOverrides);
          (0, Deliver 0 (DocsEv [mkDocument "d1" "text"]));
          (5000, Deliver 0 (AnswerPiece "token"))]
       (initialStore true false)) = 4500
  ∧ timers
      (run [(0, TypeQuery "q"); (0, Submit noOverrides);
            (0, Deliver 0 (DocsEv [mkDocument "d1" "text"]));
            (5000, Deliver 0 (AnswerPiece "token"))]
         (initialStore true false)) = [].
Proof. split; vm_compute; reflexivity. Qed.

(** C1: the code departs from the claim.  The answer callback of a
    stream is the closure of the render in which [onSearch] ran, so it
    tests the [analyzeStartTime] of that render, not the one recorded
    since.  In the claim's own run (narration on, query and documents at
    t = 0) the analysis start 4500 is recorded and the phase is
    "analyzing" when the answer arrives at t = 5000, yet the callback
    holds 0: no timer is queued and the phase is still "analyzing" at
    t = 6000 and after.  On a second query (submitted at 10000, analysis
    start 14500 recorded) the callback holds the first query's 4500: an
    answer at 15500, 1000 ms into the analysis, is due at 16500 and not
    at the boundary 16000 the claim names. *)
Theorem C1_answer_callback_holds_stale_analysis_start :
  analyzeStartTime
    (run [(0, TypeQuery "q"); (0, Submit noOverrides);
          (0, Deliver 0 (DocsEv [mkDocument "d1" "text"])); (5000, Idle)]
       (initialStore true false)) = 4500
  ∧ phase
      (run [(0, TypeQuery "q"); (0, Submit noOverrides);
            (0, Deliver 0 (DocsEv [mkDocument "d1" "text"])); (5000, Idle)]
         (initialStore true false)) = analyzing
  ∧ timers
      (run [(0, TypeQuery "q"); (0, Submit noOverrides);
            (0, Deliver 0 (DocsEv [mkDocument "d1" "text"]));
            (5000, Deliver 0 (AnswerPiece "token"))]
         (initialStore true false)) = []
  ∧ phase
      (run [(0, TypeQuery "q"); (0, Submit noOverrides);
            (0, Deliver 0 (DocsEv [mkDocument "d1" "text"]));
            (5000, Deliver 0 (AnswerPiece "token")); (6000, Idle)]
         (initialStore true false)) = analyzing
  ∧ (∀ t : Z,
        phase
          (run [(0, TypeQuery "q"); (0, Submit noOverrides);
                (0, Deliver 0 (DocsEv [mkDocument "d1" "text"]));
                (5000, Deliver 0 (AnswerPiece "token")); (t, Idle)]
             (initialStore true false)) ≠ generating)
  ∧ analyzeStartTime
      (run [(0, TypeQuery "q"); (0, Submit noOverrides);
            (0, Deliver 0 (DocsEv [mkDocument "d1" "text"]));
            (10000, Submit noOverrides);
            (10000, Deliver 1 (DocsEv [mkDocument "d2" "text"]));
            (15500, Idle)]
         (initialStore true false)) = 14500
  ∧ timers
      (run [(0, TypeQuery "q"); (0, Submit noOverrides);
            (0, Deliver 0 (DocsEv [mkDocument "d1" "text"]));
            (10000, Submit noOverrides);
            (10000, Deliver 1 (DocsEv [mkDocument "d2" "text"]));
            (15500, Deliver 1 (AnswerPiece "token"))]
         (initialStore true false)) = [mkTimer 16500 ToGenerating].
Proof.
  split; [vm_compute; reflexivity|]. split; [vm_compute; reflexivity|].
  split; [vm_compute; reflexivity|]. split; [vm_compute; reflexivity|].
  split; [|split; vm_compute; reflexivity].
  intros t.
  assert (H : ∀ st, timers st = [] → phase st = analyzing →
                    phase (step t Idle st) ≠ generating).
  { intros st Ht Hp. unfold step, advanceTo. rewrite Ht. cbn. rewrite Hp.
    discriminate. }
  unfold run. cbn [fold_left fst snd].
  apply H; vm_compute; reflexivity.
Qed.

(** C7: the error handler sets the [error] field of the response, puts
    the phase back to "input" at once, and leaves every other field of
    the response, hence the partial results merged so far, as it was. *)
Theorem C7_error_sets_field_and_returns_to_input :
  ∀ (sc : Scope) (e : string) (st : Store),
    error (searchResponse (updateError sc e st)) = Some e
    ∧ phase (updateError sc e st) = input
    ∧ searchResponse (updateError sc e st) = withError e (searchResponse st)
    ∧ (∀ f : Field, f ≠ FError →
          readField f (searchResponse (updateError sc e st)) =
          readField f (searchResponse st))
    ∧ timers (updateError sc e st) = timers st
    ∧ (∀ t : Z, phase (advanceTo t (updateError sc e st)) = input).
Proof.
  intros sc e st.
  split; [reflexivity|]. split; [reflexivity|]. split; [reflexivity|].
  split; [|split; [reflexivity|]].
  - intros f Hf. destruct f; done.
  - intros t. apply advanceTo_input. reflexivity.
Qed.

Section Documents.

Implicit Types (sc : Scope) (st s : Store) (tm : Timer)
         (docs : list SearchDanswerDocument).

Lemma updateDocs_timers sc docs st :
  sc_agentic sc = true →
  timers (updateDocs sc docs st) =
  (timers st ++ [mkTimer (clock st + 1500) ToReading;
                 mkTimer (clock st + 4500) ToAnalyzing])%list.
Proof.
  intros Hag. unfold updateDocs. rewrite Hag.
  destruct (sc_disabledAgentic sc), (length docs =? 0)%nat; cbn;
    rewrite <- app_assoc; reflexivity.
Qed.

Lemma updateDocs_empty_phase sc st : phase (updateDocs sc [] st) = input.
Proof.
  unfold updateDocs.
  destruct (sc_agentic sc), (sc_disabledAgentic sc); reflexivity.
Qed.

Lemma runTimer_analyzing_clock tm s :
  action tm = ToAnalyzing →
  analyzeStartTime (runTimer tm s) = Z.max (clock s) (due tm)
  ∧ clock (runTimer tm s) = Z.max (clock s) (due tm).
Proof.
  intros Ha. unfold runTimer. rewrite Ha. cbn.
  destruct (searchState_eqb _ _); split; reflexivity.
Qed.

End Documents.

(** C4, amended: with narration enabled an empty documents update sets
    the phase to "input" at once, although the same call has queued the
    "reading" and "analyzing" timers; a timer that fires while the phase
    is "input" leaves it "input", so if nothing else happens the phase
    stays "input" however long one waits. *)
Theorem C4_empty_documents_return_to_input :
  ∀ (sc : Scope) (st : Store),
    sc_agentic sc = true →
    phase (updateDocs sc [] st) = input
    ∧ timers (updateDocs sc [] st) =
        (timers st ++ [mkTimer (clock st + 1500) ToReading;
                       mkTimer (clock st + 4500) ToAnalyzing])%list
    ∧ (∀ (tm : Timer) (s : Store),
          phase s = input → phase (runTimer tm s) = input)
    ∧ (∀ t : Z, phase (advanceTo t (updateDocs sc [] st)) = input).
Proof.
  intros sc st Hag.
  split; [apply updateDocs_empty_phase|].
  split; [apply updateDocs_timers, Hag|].
  split; [exact runTimer_input|].
  intros t. apply advanceTo_input, updateDocs_empty_phase.
Qed.

(** An empty result set on the first query of a narrated session. *)
Lemma C4_witness_first_query :
  phase (updateDocs (mkScope "q" true false 0) []
           (setSearchState (fun _ => searching) (initialStore true false)))
  = input.
Proof.
  exact (proj1 (C4_empty_documents_return_to_input
                  (mkScope "q" true false 0)
                  (setSearchState (fun _ => searching) (initialStore true false))
                  eq_refl)).
Defined.

(** C4 as stated fails: the queued timers are guarded, not cleared.  A
    query returns no documents at t = 0 and the phase is "input"; the user
    submits again at t = 1000, which sets "searching"; at t = 1500 the
    "reading" timer of the first query fires and takes effect. *)
Lemma C4_counterexample_stale_timer_takes_effect :
  phase (run [(0, TypeQuery "q"); (0, Submit noOverrides);
              (0, Deliver 0 (DocsEv []))] (initialStore true false)) = input
  ∧ phase (run [(0, TypeQuery "q"); (0, Submit noOverrides);
                (0, Deliver 0 (DocsEv [])); (1000, Submit noOverrides)]
             (initialStore true false)) = searching
  ∧ phase (run [(0, TypeQuery "q"); (0, Submit noOverrides);
                (0, Deliver 0 (DocsEv [])); (1000, Submit noOverrides);
                (1500, Idle)] (initialStore true false)) = reading.
Proof. split; [|split]; vm_compute; reflexivity. Qed.

(** C5, amended: with narration enabled a documents update queues the
    guarded transition to "reading" 1.5 s and the one to "analyzing"
    4.5 s after the update is received; unless the phase is "input" they
    yield "reading" and "analyzing"; the "analyzing" timer records the
    time at which it fires as the analysis start. *)
Theorem C5_documents_schedule_reading_then_analyzing :
  ∀ (sc : Scope) (docs : list SearchDanswerDocument) (st : Store),
    sc_agentic sc = true →
    timers (updateDocs sc docs st) =
      (timers st ++ [mkTimer (clock st + 1500) ToReading;
                     mkTimer (clock st + 4500) ToAnalyzing])%list
    ∧ (∀ (s : Store) (d : Z),
          phase s ≠ input → phase (runTimer (mkTimer d ToReading) s) = reading)
    ∧ (∀ (s : Store) (d : Z),
          phase s ≠ input →
          phase (runTimer (mkTimer d ToAnalyzing) s) = analyzing)
    ∧ (∀ (s : Store) (d : Z),
          analyzeStartTime (runTimer (mkTimer d ToAnalyzing) s) =
            Z.max (clock s) d
          ∧ clock (runTimer (mkTimer d ToAnalyzing) s) = Z.max (clock s) d).
Proof.
  intros sc docs st Hag.
  split; [apply updateDocs_timers, Hag|].
  split; [intros s d Hs; rewrite runTimer_phase by exact Hs; reflexivity|].
  split; [intros s d Hs; rewrite runTimer_phase by exact Hs; reflexivity|].
  intros s d. apply runTimer_analyzing_clock. reflexivity.
Qed.

(** Documents received 700 ms after the store's clock started. *)
Lemma C5_witness_documents_at_700 :
  timers (updateDocs (mkScope "q" true false 0) [mkDocument "d1" "text"]
            (setClock 700 (initialStore true false))) =
  [mkTimer (700 + 1500) ToReading; mkTimer (700 + 4500) ToAnalyzing].
Proof.
  exact (proj1 (C5_documents_schedule_reading_then_analyzing
                  (mkScope "q" true false 0) [mkDocument "d1" "text"]
                  (setClock 700 (initialStore true false)) eq_refl)).
Defined.

(** C5 as stated fails: the delays count from the documents update, not
    from the start of the query.  The query starts at t = 0 and the
    documents arrive at t = 700: "analyzing" is due at 5200; at t = 4500
    the phase is "reading" and no analysis start is recorded. *)
Lemma C5_counterexample_delay_counts_from_documents :
  timers (run [(0, TypeQuery "q"); (0, Submit noOverrides);
               (700, Deliver 0 (DocsEv [mkDocument "d1" "text"]))]
            (initialStore true false)) =
    [mkTimer 2200 ToReading; mkTimer 5200 ToAnalyzing]
  ∧ phase (run [(0, TypeQuery "q"); (0, Submit noOverrides);
                (700, Deliver 0 (DocsEv [mkDocument "d1" "text"]));
                (4500, Idle)] (initialStore true false)) = reading
  ∧ analyzeStartTime
      (run [(0, TypeQuery "q"); (0, Submit noOverrides);
            (700, Deliver 0 (DocsEv [mkDocument "d1" "text"]));
            (4500, Idle)] (initialStore true false)) = 0
  ∧ phase (run [(0, TypeQuery "q"); (0, Submit noOverrides);
                (700, Deliver 0 (DocsEv [mkDocument "d1" "text"]));
                (5200, Idle)] (initialStore true false)) = analyzing.
Proof. repeat split; vm_compute; reflexivity. Qed.

(** ** Lifecycle of a query *)

Section Lifecycle.

Implicit Types (sc : Scope) (ev : StreamEvent) (st s : Store) (tm : Timer).

Lemma onSearch_issues sc ov st :
  effectiveQuery sc ov ≠ "" → ∃ st' rq, onSearch sc ov st = (st', Some rq).
Proof.
  intros Hq. unfold onSearch.
  destruct (String.eqb_spec (effectiveQuery sc ov) "") as [E|_]; [done|].
  eauto.
Qed.

Lemma onSearch_phase sc ov st st' rq :
  onSearch sc ov st = (st', Some rq) → phase st' = searching.
Proof.
  unfold onSearch. destruct (String.eqb (effectiveQuery sc ov) ""); [done|].
  intros [= <- _]. destruct (lastSearchCancellationToken _); reflexivity.
Qed.

Lemma onSearch_phase_cases sc ov st :
  phase (onSearch sc ov st).1 = phase st
  ∨ phase (onSearch sc ov st).1 = searching.
Proof.
  unfold onSearch. destruct (String.eqb (effectiveQuery sc ov) "");
    [left; reflexivity|].
  right. destruct (lastSearchCancellationToken _); reflexivity.
Qed.

Lemma handler_terminal sc ev st :
  terminal ev = true → phase (handler sc ev st) = input.
Proof.
  destruct ev; cbn; try done; intros Ht.
  - destruct docs; [apply updateDocs_empty_phase | done].
Qed.

(** Every handler keeps the phase, or sets "input", or (the relevance
    update under narration) sets "analyzing". *)
Lemma handler_phase_cases sc ev st :
  phase (handler sc ev st) = phase st
  ∨ phase (handler sc ev st) = input
  ∨ (∃ r, ev = DocumentRelevanceEv r) ∧ sc_disabledAgentic sc = false
    ∧ phase (handler sc ev st) = analyzing.
Proof.
  destruct ev; cbn; unfold_handlers;
    try (destruct (sc_disabledAgentic sc) eqn:Hd); case_ifs; cbn; eauto 7.
Qed.

Lemma dispatch_cases (rq : Request) ev st :
  dispatch rq ev st =
  if isCancelled (req_token rq) st then st else handler (req_scope rq) ev st.
Proof. destruct ev; reflexivity. Qed.

Lemma runTimer_assigned tm s :
  assigned (phase s) = true → assigned (phase (runTimer tm s)) = true.
Proof.
  destruct (decide (phase s = input)) as [Hi|Hn].
  - rewrite (runTimer_input _ _ Hi). done.
  - rewrite (runTimer_phase _ _ Hn). destruct (action tm); done.
Qed.

Lemma advanceTo_assigned t s :
  assigned (phase s) = true → assigned (phase (advanceTo t s)) = true.
Proof.
  unfold advanceTo. cbn.
  generalize (firingOrder (filter (fun tm => due tm ≤ t) (timers s))).
  intros l.
  set (s0 := setTimers _ s). change (phase s) with (phase s0).
  generalize s0. clear. induction l as [|tm l IH]; intros s0 H; [exact H|].
  cbn. apply IH, runTimer_assigned, H.
Qed.

Lemma step_assigned t (x : Step) s :
  assigned (phase s) = true → assigned (phase (step t x s)) = true.
Proof.
  intros H. apply (advanceTo_assigned t) in H. unfold step.
  set (s1 := advanceTo t s) in *. clearbody s1.
  destruct x as [q|ov|i ev|]; try exact H.
  - destruct (onSearch_phase_cases (scopeOf s1) ov s1) as [-> | ->]; done.
  - destruct (requests s1 !! i) as [rq|]; [|exact H].
    rewrite dispatch_cases. destruct (isCancelled _ _); [exact H|].
    destruct (handler_phase_cases (req_scope rq) ev s1)
      as [-> | [-> | (_ & _ & ->)]]; done.
Qed.

Lemma run_assigned (steps : list (Z * Step)) s :
  assigned (phase s) = true → assigned (phase (run steps s)) = true.
Proof.
  revert s. induction steps as [|[t x] steps IH]; intros s H; [exact H|].
  cbn. apply IH, step_assigned, H.
Qed.

End Lifecycle.

(** C8, amended: a query that is started sets the phase to "searching";
    an error, a completion event (quotes, message id) or an empty result
    set puts it back to "input"; no timed transition changes a phase that
    is "input", and a handler changes it only on a relevance update with
    narration not disabled, to "analyzing"; whatever the run, the phase
    is one of input, searching, reading, analyzing and generating. *)
Theorem C8_phase_lifecycle :
  (∀ (sc : Scope) (ov : SearchRequestOverrides) (st : Store),
      effectiveQuery sc ov ≠ "" → phase (onSearch sc ov st).1 = searching)
  ∧ (∀ (sc : Scope) (ev : StreamEvent) (st : Store),
        terminal ev = true → phase (handler sc ev st) = input)
  ∧ (∀ (tm : Timer) (s : Store),
        phase s = input → phase (runTimer tm s) = input)
  ∧ (∀ (sc : Scope) (ev : StreamEvent) (st : Store),
        phase st = input →
        phase (handler sc ev st) = input
        ∨ (∃ r, ev = DocumentRelevanceEv r) ∧ sc_disabledAgentic sc = false
          ∧ phase (handler sc ev st) = analyzing)
  ∧ (∀ (steps : list (Z * Step)) (narration disabled : bool),
        assigned (phase (run steps (initialStore narration disabled))) = true).
Proof.
  split.
  { intros sc ov st Hq.
    destruct (onSearch_issues sc ov st Hq) as (st' & rq & E).
    rewrite E. cbn. exact (onSearch_phase _ _ _ _ _ E). }
  split; [exact handler_terminal|].
  split; [exact runTimer_input|].
  split.
  { intros sc ev st Hin.
    destruct (handler_phase_cases sc ev st) as [E | [E | E]].
    - left. rewrite E. exact Hin.
    - left. exact E.
    - right. exact E. }
  intros steps narration disabled. apply run_assigned. reflexivity.
Qed.

(** The first query of a session. *)
Lemma C8_witness_first_query :
  phase (onSearch (mkScope "q" true false 0) noOverrides
           (initialStore true false)).1 = searching.
Proof.
  exact (proj1 C8_phase_lifecycle (mkScope "q" true false 0) noOverrides
           (initialStore true false) ltac:(discriminate)).
Defined.

(** C8 as stated fails twice.  Starting a query sets "searching", not
    "input".  And the phase moves backward within a query: documents at
    t = 0, a relevance update at t = 1000 sets "analyzing", and at
    t = 1500 the "reading" timer of the documents overwrites it. *)
Lemma C8_counterexample_searching_at_start_and_backward_move :
  phase (run [(0, TypeQuery "q"); (0, Submit noOverrides)]
           (initialStore true false)) = searching
  ∧ phase (run [(0, TypeQuery "q"); (0, Submit noOverrides);
                (0, Deliver 0 (DocsEv [mkDocument "d1" "text"]));
                (1000, Deliver 0 (DocumentRelevanceEv [("d1", true)]))]
             (initialStore true false)) = analyzing
  ∧ phase (run [(0, TypeQuery "q"); (0, Submit noOverrides);
                (0, Deliver 0 (DocsEv [mkDocument "d1" "text"]));
                (1000, Deliver 0 (DocumentRelevanceEv [("d1", true)]));
                (1500, Idle)] (initialStore true false)) = reading
  ∧ phaseRank reading < phaseRank analyzing.
Proof. repeat split; vm_compute; reflexivity. Qed.

(** ** Cancellation *)

Section Cancellation.

Implicit Types (sc : Scope) (ev : StreamEvent) (st s : Store) (tok : nat).

Lemma cancellable_cancelled {A : Type} tok (fn : A → Store → Store) args st :
  isCancelled tok st = true → cancellable tok fn args st = st.
Proof. unfold cancellable. intros ->. reflexivity. Qed.

Lemma cancellable_live {A : Type} tok (fn : A → Store → Store) args st :
  isCancelled tok st = false → cancellable tok fn args st = fn args st.
Proof. unfold cancellable. intros ->. reflexivity. Qed.

Lemma handler_tokens sc ev st : tokens (handler sc ev st) = tokens st.
Proof. destruct ev; cbn; unfold_handlers; case_ifs; reflexivity. Qed.

Lemma runTimer_tokens (tm : Timer) s : tokens (runTimer tm s) = tokens s.
Proof. unfold runTimer. destruct (action tm); case_ifs; reflexivity. Qed.

Lemma advanceTo_tokens t s : tokens (advanceTo t s) = tokens s.
Proof.
  unfold advanceTo. cbn.
  generalize (firingOrder (filter (fun tm => due tm ≤ t) (timers s))).
  intros l.
  set (s0 := setTimers _ s). change (tokens s) with (tokens s0).
  generalize s0. clear. induction l as [|tm l IH]; intros s0; [reflexivity|].
  cbn. rewrite IH. apply runTimer_tokens.
Qed.

Lemma isCancelled_insert tok tok' (l : list bool) :
  l !! tok = Some true → <[tok' := true]> l !! tok = Some true.
Proof.
  intros H. destruct (decide (tok' = tok)) as [->|Hne].
  - apply list_lookup_insert_eq. eapply lookup_lt_Some, H.
  - rewrite list_lookup_insert_ne by done. exact H.
Qed.

Lemma isCancelled_true tok st :
  isCancelled tok st = true ↔ tokens st !! tok = Some true.
Proof.
  unfold isCancelled. destruct (tokens st !! tok) as [[]|]; split; done.
Qed.

Lemma onSearch_keeps_cancelled sc ov st tok :
  isCancelled tok st = true → isCancelled tok (onSearch sc ov st).1 = true.
Proof.
  rewrite !isCancelled_true. intros H. unfold onSearch.
  destruct (String.eqb (effectiveQuery sc ov) ""); [exact H|].
  cbn. destruct (lastSearchCancellationToken st) as [old|]; cbn.
  - apply lookup_app_l_Some, isCancelled_insert, H.
  - apply lookup_app_l_Some, H.
Qed.

Lemma step_keeps_cancelled t (x : Step) s tok :
  isCancelled tok s = true → isCancelled tok (step t x s) = true.
Proof.
  intros H.
  assert (H1 : isCancelled tok (advanceTo t s) = true).
  { apply isCancelled_true. rewrite advanceTo_tokens.
    apply isCancelled_true, H. }
  unfold step. set (s1 := advanceTo t s) in *. clearbody s1.
  destruct x as [q|ov|i ev|]; try exact H1.
  - apply onSearch_keeps_cancelled, H1.
  - destruct (requests s1 !! i) as [rq|]; [|exact H1].
    rewrite dispatch_cases. destruct (isCancelled (req_token rq) s1);
      [exact H1|].
    apply isCancelled_true. rewrite handler_tokens.
    apply isCancelled_true, H1.
Qed.

(** A token, once cancelled, stays cancelled. *)
Lemma run_keeps_cancelled (steps : list (Z * Step)) s tok :
  isCancelled tok s = true → isCancelled tok (run steps s) = true.
Proof.
  revert s. induction steps as [|[t x] steps IH]; intros s H; [exact H|].
  cbn. apply IH, step_keeps_cancelled, H.
Qed.

Lemma onSearch_tokens sc ov st st' rq :
  tokenRefValid st →
  onSearch sc ov st = (st', Some rq) →
  req_token rq = length (tokens st)
  ∧ lastSearchCancellationToken st' = Some (req_token rq)
  ∧ isCancelled (req_token rq) st' = false
  ∧ tokenRefValid st'
  ∧ (∀ old, lastSearchCancellationToken st = Some old →
            isCancelled old st' = true).
Proof.
  intros Hv. unfold onSearch.
  destruct (String.eqb (effectiveQuery sc ov) ""); [done|].
  intros [= <- <-]. unfold tokenRefValid, isCancelled in *. cbn.
  destruct (lastSearchCancellationToken st) as [old|] eqn:Hold; cbn.
  - rewrite length_insert.
    split; [reflexivity|]. split; [reflexivity|].
    split; [rewrite lookup_app_r, length_insert, Nat.sub_diag
              by (rewrite length_insert; lia); reflexivity|].
    split; [rewrite length_app, length_insert; cbn; lia|].
    intros ? [= <-].
    rewrite lookup_app_l by (rewrite length_insert; lia).
    rewrite list_lookup_insert_eq by lia. reflexivity.
  - split; [reflexivity|]. split; [reflexivity|].
    split; [rewrite lookup_app_r, Nat.sub_diag by lia; reflexivity|].
    split; [rewrite length_app; cbn; lia|]. done.
Qed.

Lemma onSearch_request sc ov st st' rq :
  onSearch sc ov st = (st', Some rq) →
  req_query rq = effectiveQuery sc ov ∧ req_scope rq = sc
  ∧ req_agentic rq = ov_agentic ov
  ∧ requests st' = (requests st ++ [rq])%list.
Proof.
  unfold onSearch.
  destruct (String.eqb (effectiveQuery sc ov) ""); [done|].
  intros [= <- <-].
  destruct (lastSearchCancellationToken st); cbn; done.
Qed.

Lemma effectiveQuery_override sc ov m :
  overrideMessage ov = Some m → m ≠ "" → effectiveQuery sc ov = m.
Proof.
  intros E Hm. unfold effectiveQuery. rewrite E.
  destruct (String.eqb_spec m ""); [contradiction|reflexivity].
Qed.

Lemma effectiveQuery_typed sc ov :
  overrideMessage ov = None ∨ overrideMessage ov = Some "" →
  effectiveQuery sc ov = sc_query sc.
Proof. intros [E|E]; unfold effectiveQuery; rewrite E; reflexivity. Qed.

Lemma step_tokenRefValid t (x : Step) s :
  tokenRefValid s → tokenRefValid (step t x s).
Proof.
  intros H.
  assert (H1 : tokenRefValid (advanceTo t s)).
  { unfold tokenRefValid in *. rewrite advanceTo_tokens.
    replace (lastSearchCancellationToken (advanceTo t s))
      with (lastSearchCancellationToken s); [exact H|].
    unfold advanceTo. cbn.
    generalize (firingOrder (filter (fun tm => due tm ≤ t) (timers s))).
    intros l. set (s0 := setTimers _ s).
    change (lastSearchCancellationToken s)
      with (lastSearchCancellationToken s0).
    generalize s0. clear. induction l as [|tm l IH]; intros s0;
      [reflexivity|].
    cbn. rewrite <- IH. unfold runTimer.
    destruct (action tm); case_ifs; reflexivity. }
  unfold step. set (s1 := advanceTo t s) in *. clearbody s1.
  destruct x as [q|ov|i ev|]; try exact H1.
  - destruct (onSearch (scopeOf s1) ov s1) as [st' [rq|]] eqn:E; cbn.
    + apply (onSearch_tokens _ _ _ _ _ H1 E).
    + unfold onSearch in E.
      destruct (String.eqb _ ""); [|done]. injection E as <-. exact H1.
  - destruct (requests s1 !! i) as [rq|]; [|exact H1].
    rewrite dispatch_cases. destruct (isCancelled (req_token rq) s1);
      [exact H1|].
    unfold tokenRefValid in *. rewrite handler_tokens.
    replace (lastSearchCancellationToken (handler (req_scope rq) ev s1))
      with (lastSearchCancellationToken s1); [exact H1|].
    destruct ev; cbn; unfold_handlers; case_ifs; reflexivity.
Qed.

Lemma run_tokenRefValid (steps : list (Z * Step)) s :
  tokenRefValid s → tokenRefValid (run steps s).
Proof.
  revert s. induction steps as [|[t x] steps IH]; intros s H; [exact H|].
  cbn. apply IH, step_tokenRefValid, H.
Qed.

End Cancellation.

(** C3, amended: a callback wrapped with a token that is cancelled does
    nothing, whatever the callback, and a token cancelled at some point is
    still cancelled at every later dispatch, so no event of its stream
    runs a handler any more.  Every invocation of [onSearch] whose query
    (the override message when it is given and not empty, the typed query
    otherwise) is not empty first cancels the token the ref holds, then
    creates a token that no earlier request was given, stores it in the
    ref and issues the request for that query with callbacks wrapped with
    the new token: these are live, those of the superseded stream are
    no-ops from then on.  An invocation with an empty query returns at
    once: it cancels nothing, installs no token and issues no request. *)
Theorem C3_cancelled_callbacks_never_run :
  (∀ (A : Type) (fn : A → Store → Store) (tok : nat) (args : A) (st : Store),
      isCancelled tok st = true → cancellable tok fn args st = st)
  ∧ (∀ (rq : Request) (ev : StreamEvent) (st : Store)
       (later : list (Z * Step)),
        isCancelled (req_token rq) st = true →
        dispatch rq ev (run later st) = run later st)
  ∧ (∀ (sc : Scope) (ov : SearchRequestOverrides) (st : Store),
        effectiveQuery sc ov ≠ "" →
        tokenRefValid st →
        ∃ st' rq,
          onSearch sc ov st = (st', Some rq)
          ∧ req_token rq = length (tokens st)
          ∧ lastSearchCancellationToken st' = Some (req_token rq)
          ∧ isCancelled (req_token rq) st' = false
          ∧ (∀ ev, dispatch rq ev st' = handler (req_scope rq) ev st')
          ∧ (∀ old, lastSearchCancellationToken st = Some old →
                isCancelled old st' = true
                ∧ ∀ (rq' : Request) (ev : StreamEvent)
                    (later : list (Z * Step)),
                    req_token rq' = old →
                    dispatch rq' ev (run later st') = run later st')
          ∧ req_query rq = effectiveQuery sc ov
          ∧ req_scope rq = sc
          ∧ requests st' = (requests st ++ [rq])%list)
  ∧ (∀ (sc : Scope) (ov : SearchRequestOverrides) (st : Store),
        effectiveQuery sc ov = "" → onSearch sc ov st = (st, None))
  ∧ (∀ (steps : list (Z * Step)) (narration disabled : bool),
        tokenRefValid (run steps (initialStore narration disabled)))
  ∧ (∀ (sc : Scope) (ov : SearchRequestOverrides) (m : string),
        overrideMessage ov = Some m → m ≠ "" → effectiveQuery sc ov = m)
  ∧ (∀ (sc : Scope) (ov : SearchRequestOverrides),
        overrideMessage ov = None ∨ overrideMessage ov = Some "" →
        effectiveQuery sc ov = sc_query sc).
Proof.
  assert (Hsilent : ∀ (rq : Request) ev st (later : list (Z * Step)),
             isCancelled (req_token rq) st = true →
             dispatch rq ev (run later st) = run later st).
  { intros rq ev st later H. rewrite dispatch_cases.
    rewrite (run_keeps_cancelled later st _ H). reflexivity. }
  split; [intros A fn tok args st; apply cancellable_cancelled|].
  split; [exact Hsilent|].
  split.
  { intros sc ov st Hq Hv.
    destruct (onSearch_issues sc ov st Hq) as (st' & rq & E).
    destruct (onSearch_tokens sc ov st st' rq Hv E)
      as (Hfresh & Href & Hlive & _ & Hold).
    destruct (onSearch_request sc ov st st' rq E) as (Hrq & Hsc & _ & Hrqs).
    exists st', rq. split; [exact E|]. split; [exact Hfresh|].
    split; [exact Href|]. split; [exact Hlive|]. split.
    - intros ev. rewrite dispatch_cases, Hlive. reflexivity.
    - split; [|done].
      intros old Ho. split; [apply Hold, Ho|].
      intros rq' ev later <-. apply Hsilent, Hold, Ho. }
  split.
  { intros sc ov st E. unfold onSearch. rewrite E. reflexivity. }
  split.
  { intros steps narration disabled. apply run_tokenRefValid. exact I. }
  split; [exact effectiveQuery_override|exact effectiveQuery_typed].
Qed.

(** A second query, given as an override message while the input is
    empty, on a component whose first stream is still live: the request
    carries the override, token 1 is installed and live, token 0 of the
    first stream is cancelled and a late answer of that stream changes
    nothing. *)
Lemma C3_witness_second_query_supersedes_first :
  ∃ st' rq,
    onSearch (mkScope "" true false 0)
      (mkOverrides None None None (Some "again"))
      (onSearch (mkScope "q" true false 0) noOverrides
         (initialStore true false)).1 = (st', Some rq)
    ∧ req_query rq = "again"
    ∧ req_token rq = 1%nat
    ∧ lastSearchCancellationToken st' = Some 1%nat
    ∧ isCancelled 1 st' = false
    ∧ isCancelled 0 st' = true
    ∧ dispatch (mkRequest "q" None 0 (mkScope "q" true false 0))
        (AnswerPiece "late") st' = st'.
Proof.
  destruct (proj1 (proj2 (proj2 C3_cancelled_callbacks_never_run))
              (mkScope "" true false 0)
              (mkOverrides None None None (Some "again"))
              (onSearch (mkScope "q" true false 0) noOverrides
                 (initialStore true false)).1)
    as (st' & rq & E & Hfresh & Href & Hlive & _ & Hold & Hq & _).
  - vm_compute. discriminate.
  - vm_compute. lia.
  - destruct (Hold 0%nat eq_refl) as [Hc Hd].
    exists st', rq. split; [exact E|]. split; [exact Hq|].
    rewrite Hfresh in Href, Hlive.
    split; [exact Hfresh|]. split; [exact Href|]. split; [exact Hlive|].
    split; [exact Hc|].
    exact (Hd (mkRequest "q" None 0 (mkScope "q" true false 0))
              (AnswerPiece "late") [] eq_refl).
Defined.

(** C3 as stated fails for an invocation of [onSearch] with an empty
    query: it returns before the token is touched.  A query is submitted
    at t = 0; at t = 500 the input is cleared and submitted again; the
    token of the first stream is still live and the ref still holds it, no
    second request was issued, and an answer of the first stream arriving
    at t = 600 is merged. *)
Lemma C3_counterexample_empty_query_cancels_nothing :
  tokens (run [(0, TypeQuery "q"); (0, Submit noOverrides);
               (500, TypeQuery ""); (500, Submit noOverrides)]
            (initialStore true false)) = [false]
  ∧ lastSearchCancellationToken
      (run [(0, TypeQuery "q"); (0, Submit noOverrides);
            (500, TypeQuery ""); (500, Submit noOverrides)]
         (initialStore true false)) = Some 0%nat
  ∧ length (requests
      (run [(0, TypeQuery "q"); (0, Submit noOverrides);
            (500, TypeQuery ""); (500, Submit noOverrides)]
         (initialStore true false))) = 1%nat
  ∧ answer (searchResponse
      (run [(0, TypeQuery "q"); (0, Submit noOverrides);
            (500, TypeQuery ""); (500, Submit noOverrides);
            (600, Deliver 0 (AnswerPiece "late"))]
         (initialStore true false))) = Some "late".
Proof. split; [|split; [|split]]; vm_compute; reflexivity. Qed.

(** A concrete stream for C2: an answer, documents, the answer grown. *)
Lemma C2_witness_three_answers :
  readField FAnswer
    (searchResponse
       (deliverAll [(mkScope "q" true false 0, AnswerPiece "a");
                    (mkScope "q" true false 0, DocsEv [mkDocument "d" "t"]);
                    (mkScope "q" true false 0, AnswerPiece "ab")]
          (initialStore true false)))
  = PText (Some "ab").
Proof.
  exact (proj1 (proj2 C2_last_write_per_field)
           [(mkScope "q" true false 0, AnswerPiece "a");
            (mkScope "q" true false 0, DocsEv [mkDocument "d" "t"]);
            (mkScope "q" true false 0, AnswerPiece "ab")]
           (initialStore true false) FAnswer eq_refl).
Defined.

(** ** Assistant editor *)

Section Editor.

Import AssistantEditor.

Lemma trimStart_nil (s : list N) :
  trimStart s = [] ↔ Forall (fun c => isWhiteSpace c = true) s.
Proof.
  induction s as [|c s IH]; cbn.
  - split; [constructor | reflexivity].
  - destruct (isWhiteSpace c) eqn:Hc.
    + rewrite IH. split; [by constructor | by inversion 1].
    + split; [done | inversion 1; congruence].
Qed.

(** What [trimStart] leaves does not start with white space. *)
Lemma trimStart_head (s : list N) :
  trimStart s = [] ∨
  ∃ c r, trimStart s = c :: r ∧ isWhiteSpace c = false.
Proof.
  induction s as [|c s IH]; cbn; [by left|].
  destruct (isWhiteSpace c) eqn:Hc; [exact IH | right; eauto].
Qed.

Lemma trim_nil (s : list N) :
  trim s = [] ↔ Forall (fun c => isWhiteSpace c = true) s.
Proof.
  unfold trim. split.
  - intros H. apply (f_equal (@rev N)) in H. rewrite rev_involutive in H.
    cbn in H. apply trimStart_nil in H.
    destruct (trimStart_head s) as [E | (c & r & E & Hc)].
    + apply trimStart_nil, E.
    + rewrite E in H. apply Forall_rev in H. rewrite rev_involutive in H.
      inversion H; congruence.
  - intros H. apply trimStart_nil in H. rewrite H. reflexivity.
Qed.

Lemma promptSpecified_false (p : option (list N)) :
  promptSpecified p = false ↔ blank p.
Proof.
  destruct p as [s|]; [|done]. unfold promptSpecified, blank.
  rewrite <- trim_nil. destruct s as [|c s]; [done|].
  destruct (trim (c :: s)) as [|c' r]; split; done.
Qed.

Lemma promptSpecified_true (p : option (list N)) :
  promptSpecified p = true ↔ ¬ blank p.
Proof.
  rewrite <- promptSpecified_false. destruct (promptSpecified p); split; done.
Qed.

Lemma searchToolEnabled_spec (searchTool : option nat)
  (enabled_tools_map : gmap nat bool) :
  searchToolEnabled searchTool enabled_tools_map = true ↔
  ∃ id, searchTool = Some id ∧ enabled_tools_map !! id = Some true.
Proof.
  unfold searchToolEnabled, enabledTools.
  destruct searchTool as [id|]; [|split; [done | intros (? & ? & _); done]].
  rewrite bool_decide_eq_true, list_elem_of_filter. split.
  - intros [H _]. eauto.
  - intros (? & [= <-] & H). split; [exact H|].
    rewrite merge_sort_Permutation.
    apply list_elem_of_fmap. exists (id, true). split; [reflexivity|].
    apply elem_of_map_to_list. exact H.
Qed.

End Editor.

(** C9: when the system prompt and the task prompt are both absent, empty
    or white space only, the prompt rule reports exactly one error, at
    path [system_prompt], with the message "Must provide either System
    Prompt or Additional Instructions", and the submit handler, which
    makes the API calls, is not run whatever the other rules report; when
    either prompt has a character that is not white space the rule
    reports nothing. *)
Theorem C9_prompt_rule :
  ∀ values : AssistantEditor.PromptValues,
    (AssistantEditor.blank (AssistantEditor.system_prompt values)
     ∧ AssistantEditor.blank (AssistantEditor.task_prompt values) →
     AssistantEditor.promptErrors values =
       [AssistantEditor.mkValidationError "system_prompt"
          "Must provide either System Prompt or Additional Instructions"]
     ∧ ∀ others, AssistantEditor.submitHandlerRuns others values = false)
    ∧ (¬ AssistantEditor.blank (AssistantEditor.system_prompt values)
       ∨ ¬ AssistantEditor.blank (AssistantEditor.task_prompt values) →
       AssistantEditor.systemPromptOrTaskPrompt values = None
       ∧ AssistantEditor.promptErrors values = []
       ∧ AssistantEditor.submitHandlerRuns [] values = true).
Proof.
  intros values. split.
  - intros [Hs Ht].
    apply promptSpecified_false in Hs, Ht.
    assert (E : AssistantEditor.promptErrors values =
                [AssistantEditor.mkValidationError "system_prompt"
                   AssistantEditor.promptMessage]).
    { unfold AssistantEditor.promptErrors,
        AssistantEditor.systemPromptOrTaskPrompt.
      rewrite Hs, Ht. reflexivity. }
    split; [exact E|].
    intros others. unfold AssistantEditor.submitHandlerRuns. rewrite E.
    destruct others; reflexivity.
  - intros H.
    assert (E : AssistantEditor.systemPromptOrTaskPrompt values = None).
    { unfold AssistantEditor.systemPromptOrTaskPrompt.
      destruct H as [H|H]; apply promptSpecified_true in H; rewrite H;
        [|rewrite orb_true_r]; reflexivity. }
    unfold AssistantEditor.submitHandlerRuns, AssistantEditor.promptErrors.
    rewrite E. done.
Qed.

(** A system prompt of a space and a tab, and an empty task prompt. *)
Lemma C9_witness_blank_prompts :
  AssistantEditor.promptErrors
    (AssistantEditor.mkPromptValues (Some [32; 9]%N) (Some [])) =
  [AssistantEditor.mkValidationError "system_prompt"
     "Must provide either System Prompt or Additional Instructions"].
Proof.
  exact (proj1 (proj1 (C9_prompt_rule
                  (AssistantEditor.mkPromptValues (Some [32; 9]%N) (Some [])))
           ltac:(split; cbn; repeat constructor))).
Defined.

(** C10, amended: the value sent as [num_chunks] is never null; it is the
    number 0 when the search tool is disabled; when the search tool is
    enabled (it exists and its entry of [enabled_tools_map] is true) a
    falsy form value (null, the number 0, the empty text) becomes the
    number 10 and every other value is sent as it is, so the number 0 is
    never sent while the search tool is enabled. *)
Theorem C10_numChunks_payload :
  (∀ v, AssistantEditor.numChunks false v = AssistantEditor.VNumber 0)
  ∧ (∀ v, AssistantEditor.truthy v = false →
          AssistantEditor.numChunks true v = AssistantEditor.VNumber 10)
  ∧ (∀ v, AssistantEditor.truthy v = true →
          AssistantEditor.numChunks true v = v)
  ∧ (∀ v, AssistantEditor.truthy v = false ↔
          v = AssistantEditor.VNull ∨ v = AssistantEditor.VNumber 0
          ∨ v = AssistantEditor.VString "")
  ∧ (∀ on v, AssistantEditor.numChunks on v ≠ AssistantEditor.VNull)
  ∧ (∀ v, AssistantEditor.numChunks true v ≠ AssistantEditor.VNumber 0)
  ∧ (∀ (searchTool : option nat) (enabled_tools_map : gmap nat bool),
        AssistantEditor.searchToolEnabled searchTool enabled_tools_map = true ↔
        ∃ id, searchTool = Some id ∧ enabled_tools_map !! id = Some true).
Proof.
  split; [reflexivity|].
  split; [intros v H; unfold AssistantEditor.numChunks; rewrite H; reflexivity|].
  split; [intros v H; unfold AssistantEditor.numChunks; rewrite H; reflexivity|].
  split.
  { intros [|n|s]; cbn.
    - split; [by left | done].
    - rewrite negb_false_iff, Z.eqb_eq. split.
      + intros ->. right. by left.
      + intros [H | [H | H]]; congruence.
    - rewrite negb_false_iff, String.eqb_eq. split.
      + intros ->. right. by right.
      + intros [H | [H | H]]; congruence. }
  split.
  { intros [] v; unfold AssistantEditor.numChunks; [|done].
    destruct v; cbn; [done | destruct (n =? 0); done |].
    destruct (String.eqb s ""); done. }
  split; [|exact searchToolEnabled_spec].
  intros v. unfold AssistantEditor.numChunks.
  destruct v as [|n|s]; cbn; [done | | destruct (String.eqb s ""); done].
  destruct (Z.eqb_spec n 0); cbn; [done | congruence].
Qed.

(** A field left empty while the search tool is enabled. *)
Lemma C10_witness_empty_field :
  AssistantEditor.numChunks true (AssistantEditor.VString "") =
  AssistantEditor.VNumber 10.
Proof.
  exact (proj1 (proj2 C10_numChunks_payload) (AssistantEditor.VString "")
           eq_refl).
Defined.

(** C10 as stated fails: the field's [onChange] stores the text typed, and
    a text of digits is truthy.  With "0" typed, which the field accepts,
    and the search tool enabled, the value sent is the text "0": a chunk
    count of 0. *)
Lemma C10_counterexample_typed_zero :
  AssistantEditor.fieldAccepts "0" = true
  ∧ AssistantEditor.numChunks true (AssistantEditor.VString "0") =
      AssistantEditor.VString "0"
  ∧ AssistantEditor.chunkCount
      (AssistantEditor.numChunks true (AssistantEditor.VString "0")) = Some 0.
Proof. repeat split. Qed.

(** * Further properties of the search section *)

(** ** Streams and tokens along a run *)

Section Streams.

Implicit Types (sc : Scope) (ev : StreamEvent) (st s : Store).

Lemma handler_requests sc ev st : requests (handler sc ev st) = requests st.
Proof. destruct ev; cbn; unfold_handlers; case_ifs; reflexivity. Qed.

Lemma handler_lastToken sc ev st :
  lastSearchCancellationToken (handler sc ev st) =
  lastSearchCancellationToken st.
Proof. destruct ev; cbn; unfold_handlers; case_ifs; reflexivity. Qed.

(** Whatever the timer callbacks and the clock leave alone is the same
    after time has passed. *)
Lemma advanceTo_frame {A : Type} (proj : Store → A) :
  (∀ (tm : Timer) s, proj (runTimer tm s) = proj s) →
  (∀ v s, proj (setTimers v s) = proj s) →
  (∀ v s, proj (setClock v s) = proj s) →
  ∀ t s, proj (advanceTo t s) = proj s.
Proof.
  intros Hrun Htimers Hclock t s. unfold advanceTo.
  rewrite Hclock.
  rewrite <- (Htimers (filter (fun tm => ¬ due tm ≤ t) (timers s)) s).
  generalize (setTimers (filter (fun tm => ¬ due tm ≤ t) (timers s)) s).
  generalize (firingOrder (filter (fun tm => due tm ≤ t) (timers s))).
  intros l. induction l as [|tm l IH]; intros s0; [reflexivity|].
  cbn. rewrite IH. apply Hrun.
Qed.

Lemma advanceTo_requests t s : requests (advanceTo t s) = requests s.
Proof.
  apply (advanceTo_frame requests); try reflexivity.
  intros tm s0. unfold runTimer. destruct (action tm); case_ifs; reflexivity.
Qed.

Lemma advanceTo_lastToken t s :
  lastSearchCancellationToken (advanceTo t s) = lastSearchCancellationToken s.
Proof.
  apply (advanceTo_frame lastSearchCancellationToken); try reflexivity.
  intros tm s0. unfold runTimer. destruct (action tm); case_ifs; reflexivity.
Qed.

Lemma advanceTo_searchResponse t s :
  searchResponse (advanceTo t s) = searchResponse s.
Proof.
  apply (advanceTo_frame searchResponse); try reflexivity.
  intros tm s0. unfold runTimer. destruct (action tm); case_ifs; reflexivity.
Qed.

Lemma streamsInStep_frame st st' :
  tokens st' = tokens st →
  requests st' = requests st →
  lastSearchCancellationToken st' = lastSearchCancellationToken st →
  streamsInStep st → streamsInStep st'.
Proof. unfold streamsInStep. intros -> -> ->. done. Qed.

Lemma onSearch_streamsInStep sc ov st :
  streamsInStep st → streamsInStep (onSearch sc ov st).1.
Proof.
  intros (Hlen & Hreq & Hlast & Hflag). unfold onSearch.
  destruct (String.eqb (effectiveQuery sc ov) ""); [done|].
  unfold streamsInStep. cbn.
  set (toks := tokens
                 match lastSearchCancellationToken st with
                 | Some tok => cancel tok (setContentEnriched false
                                 (resetInput false
                                    (setAgenticResults (ov_agentic ov) st)))
                 | None => setContentEnriched false
                             (resetInput false
                                (setAgenticResults (ov_agentic ov) st))
                 end).
  assert (Htoks : toks = match lastSearchCancellationToken st with
                         | Some tok => <[tok := true]> (tokens st)
                         | None => tokens st
                         end).
  { subst toks. destruct (lastSearchCancellationToken st); reflexivity. }
  assert (Hl : length toks = length (tokens st)).
  { rewrite Htoks. destruct (lastSearchCancellationToken st);
      [apply length_insert | reflexivity]. }
  assert (Hrq : requests
                  match lastSearchCancellationToken st with
                  | Some tok => cancel tok (setContentEnriched false
                                  (resetInput false
                                     (setAgenticResults (ov_agentic ov) st)))
                  | None => setContentEnriched false
                              (resetInput false
                                 (setAgenticResults (ov_agentic ov) st))
                  end = requests st).
  { destruct (lastSearchCancellationToken st); reflexivity. }
  rewrite Hrq, !length_app, Hl. cbn.
  split; [lia|]. split; [|split].
  - intros i rq Hi. apply lookup_app_Some in Hi as [Hi | [Hge Hi]].
    + apply Hreq, Hi.
    + destruct (i - length (requests st))%nat as [|k] eqn:E; [|done].
      injection Hi as <-. cbn. lia.
  - replace (length (tokens st) + 1)%nat with (S (length (tokens st))) by lia.
    reflexivity.
  - intros i b Hi.
    replace (length (tokens st) + 1)%nat with (S (length (tokens st))) by lia.
    apply lookup_app_Some in Hi as [Hi | [Hge Hi]].
    + pose proof (lookup_lt_Some _ _ _ Hi) as Hlt. rewrite Hl in Hlt.
      rewrite bool_decide_eq_true_2 by lia.
      rewrite Htoks in Hi.
      destruct (lastSearchCancellationToken st) as [tok|] eqn:Hcur.
      * destruct (decide (tok = i)) as [->|Hne].
        -- rewrite list_lookup_insert_eq in Hi by lia. congruence.
        -- rewrite list_lookup_insert_ne in Hi by done.
           rewrite (Hflag i b Hi).
           destruct (length (tokens st)) as [|n]; [lia|].
           injection Hlast as <-. apply bool_decide_eq_true_2. lia.
      * destruct (length (tokens st)) as [|n]; [lia | done].
    + rewrite Hl in Hge, Hi.
      destruct (i - length (tokens st))%nat as [|k] eqn:E; [|done].
      injection Hi as <-. symmetry. apply bool_decide_eq_false_2. lia.
Qed.

Lemma step_streamsInStep t (x : Step) s :
  streamsInStep s → streamsInStep (step t x s).
Proof.
  intros H.
  assert (H1 : streamsInStep (advanceTo t s)).
  { revert H. apply streamsInStep_frame;
      [apply advanceTo_tokens | apply advanceTo_requests
      | apply advanceTo_lastToken]. }
  unfold step. set (s1 := advanceTo t s) in *. clearbody s1.
  destruct x as [q|ov|i ev|]; try exact H1.
  - apply onSearch_streamsInStep, H1.
  - destruct (requests s1 !! i) as [rq|]; [|exact H1].
    rewrite dispatch_cases. destruct (isCancelled (req_token rq) s1);
      [exact H1|].
    revert H1. apply streamsInStep_frame;
      [apply handler_tokens | apply handler_requests
      | apply handler_lastToken].
Qed.

Lemma run_streamsInStep (steps : list (Z * Step)) s :
  streamsInStep s → streamsInStep (run steps s).
Proof.
  revert s. induction steps as [|[t x] steps IH]; intros s H; [exact H|].
  cbn. apply IH, step_streamsInStep, H.
Qed.

Lemma initialStore_streamsInStep narration disabled :
  streamsInStep (initialStore narration disabled).
Proof. repeat split; intros i ? Hi; inversion Hi. Qed.

(** In a store in step the stream of request [i] is live exactly when
    [i] is the last request. *)
Lemma streamsInStep_live st i rq :
  streamsInStep st → requests st !! i = Some rq →
  isCancelled (req_token rq) st = bool_decide (S i ≠ length (requests st)).
Proof.
  intros (Hlen & Hreq & _ & Hflag) Hi.
  rewrite (Hreq i rq Hi), Hlen. unfold isCancelled.
  pose proof (lookup_lt_Some _ _ _ Hi) as Hlt. rewrite Hlen in Hlt.
  destruct (lookup_lt_is_Some_2 (tokens st) i Hlt) as [b Hb].
  rewrite Hb. apply Hflag, Hb.
Qed.

(** A delivery of a superseded stream only lets time pass. *)
Lemma step_stale_delivery t i ev s :
  streamsInStep s → (S i < length (requests s))%nat →
  step t (Deliver i ev) s = advanceTo t s.
Proof.
  intros H Hlt.
  assert (H1 : streamsInStep (advanceTo t s)).
  { revert H. apply streamsInStep_frame;
      [apply advanceTo_tokens | apply advanceTo_requests
      | apply advanceTo_lastToken]. }
  unfold step. rewrite <- (advanceTo_requests t s) in Hlt.
  set (s1 := advanceTo t s) in *. clearbody s1.
  destruct (requests s1 !! i) as [rq|] eqn:Hi; [|reflexivity].
  rewrite dispatch_cases, (streamsInStep_live s1 i rq H1 Hi).
  rewrite bool_decide_eq_true_2 by lia. reflexivity.
Qed.

End Streams.

Lemma onSearch_fresh_response sc ov st :
  effectiveQuery sc ov ≠ "" →
  searchResponse (onSearch sc ov st).1 = initialSearchResponse
  ∧ isFetching (onSearch sc ov st).1 = true
  ∧ length (requests (onSearch sc ov st).1) = S (length (requests st)).
Proof.
  intros Hq. unfold onSearch.
  destruct (String.eqb_spec (effectiveQuery sc ov) "") as [E|_]; [done|].
  cbn. destruct (lastSearchCancellationToken st); cbn;
    rewrite length_app; cbn; repeat split; lia.
Qed.

Lemma run_superseded_only (later : list (Z * Step)) (n : nat) s :
  streamsInStep s → length (requests s) = S n →
  Forall (fromStreamsBefore n) later →
  searchResponse (run later s) = searchResponse s
  ∧ isFetching (run later s) = isFetching s
  ∧ requests (run later s) = requests s.
Proof.
  intros Hin Hlen Hall. revert s Hin Hlen.
  induction Hall as [|[t x] later Hx _ IH]; intros s Hin Hlen; [done|].
  cbn [run fold_left fst snd].
  assert (Hstep : step t x s = advanceTo t s).
  { destruct x as [q|ov|i ev|]; cbn in Hx; try done.
    apply step_stale_delivery; [exact Hin | lia]. }
  change (fold_left _ later (step t x s)) with (run later (step t x s)).
  rewrite Hstep.
  destruct (IH (advanceTo t s)) as (Hr & Hf & Hq).
  - revert Hin. apply streamsInStep_frame;
      [apply advanceTo_tokens | apply advanceTo_requests
      | apply advanceTo_lastToken].
  - rewrite advanceTo_requests. exact Hlen.
  - rewrite Hr, Hf, Hq, advanceTo_searchResponse, advanceTo_requests.
    split; [reflexivity|]. split; [|reflexivity].
    apply (advanceTo_frame isFetching); try reflexivity.
    intros tm s0. unfold runTimer. destruct (action tm); case_ifs; reflexivity.
Qed.

(** X1: along any run of the component request [i] holds token [i], and
    the stream of a request is live exactly when it is the latest one:
    what an older stream delivers is dropped, what the latest delivers
    reaches its handler. *)
Theorem X1_only_latest_stream_is_live :
  ∀ (steps : list (Z * Step)) (narration disabled : bool) (i : nat)
    (rq : Request),
    requests (run steps (initialStore narration disabled)) !! i = Some rq →
    req_token rq = i
    ∧ (∀ ev,
          dispatch rq ev (run steps (initialStore narration disabled)) =
          if bool_decide
               (S i = length (requests
                               (run steps (initialStore narration disabled))))
          then handler (req_scope rq) ev
                 (run steps (initialStore narration disabled))
          else run steps (initialStore narration disabled)).
Proof.
  intros steps narration disabled i rq Hi.
  pose proof (run_streamsInStep steps _
                (initialStore_streamsInStep narration disabled)) as Hin.
  split; [apply (proj1 (proj2 Hin) i rq Hi)|].
  intros ev. rewrite dispatch_cases, (streamsInStep_live _ i rq Hin Hi).
  destruct (decide (S i = length (requests
                      (run steps (initialStore narration disabled)))))
    as [E|E].
  - rewrite bool_decide_eq_false_2 by lia.
    rewrite bool_decide_eq_true_2 by exact E. reflexivity.
  - rewrite bool_decide_eq_true_2 by exact E.
    rewrite bool_decide_eq_false_2 by exact E. reflexivity.
Qed.

(** Two queries: the first stream is request 0 and is superseded. *)
Lemma X1_witness_two_queries :
  req_token (mkRequest "q" None 0 (mkScope "q" true false 0)) = 0%nat
  ∧ ∀ ev,
      dispatch (mkRequest "q" None 0 (mkScope "q" true false 0)) ev
        (run [(0, TypeQuery "q"); (0, Submit noOverrides);
              (900, Submit noOverrides)] (initialStore true false)) =
      if bool_decide
           (1%nat = length (requests
                         (run [(0, TypeQuery "q"); (0, Submit noOverrides);
                               (900, Submit noOverrides)]
                            (initialStore true false))))
      then handler (mkScope "q" true false 0) ev
             (run [(0, TypeQuery "q"); (0, Submit noOverrides);
                   (900, Submit noOverrides)] (initialStore true false))
      else run [(0, TypeQuery "q"); (0, Submit noOverrides);
                (900, Submit noOverrides)] (initialStore true false).
Proof.
  exact (X1_only_latest_stream_is_live
           [(0, TypeQuery "q"); (0, Submit noOverrides);
            (900, Submit noOverrides)] true false 0%nat
           (mkRequest "q" None 0 (mkScope "q" true false 0)) eq_refl).
Defined.

(** X2: once a query has been submitted in a run, whatever the
    superseded streams still deliver and however much time passes, the
    response stays the empty one the submission installed and the fetch
    stays in progress. *)
Theorem X2_superseded_streams_leave_new_response_empty :
  ∀ (steps later : list (Z * Step)) (narration disabled : bool) (t : Z)
    (ov : SearchRequestOverrides),
    effectiveQuery
      (scopeOf (advanceTo t (run steps (initialStore narration disabled))))
      ov ≠ "" →
    Forall (fromStreamsBefore
              (length (requests (run steps (initialStore narration disabled)))))
           later →
    searchResponse
      (run later (step t (Submit ov)
                    (run steps (initialStore narration disabled)))) =
      initialSearchResponse
    ∧ isFetching
        (run later (step t (Submit ov)
                      (run steps (initialStore narration disabled)))) = true.
Proof.
  intros steps later narration disabled t ov Hq Hall.
  set (st := run steps (initialStore narration disabled)) in *.
  assert (Hin : streamsInStep st)
    by apply run_streamsInStep, initialStore_streamsInStep.
  assert (Hin' : streamsInStep (step t (Submit ov) st))
    by apply step_streamsInStep, Hin.
  destruct (onSearch_fresh_response _ ov (advanceTo t st) Hq)
    as (Hr & Hf & Hl).
  rewrite advanceTo_requests in Hl.
  destruct (run_superseded_only later (length (requests st))
              (step t (Submit ov) st) Hin' Hl Hall) as (Er & Ef & _).
  rewrite Er, Ef. split; [exact Hr | exact Hf].
Qed.

(** A second query at t = 1000; the first stream answers at t = 1200. *)
Lemma X2_witness_late_answer_of_first_stream :
  searchResponse
    (run [(1200, Deliver 0 (AnswerPiece "old"))]
       (step 1000 (Submit noOverrides)
          (run [(0, TypeQuery "q"); (0, Submit noOverrides)]
             (initialStore true false)))) = initialSearchResponse
  ∧ isFetching
      (run [(1200, Deliver 0 (AnswerPiece "old"))]
         (step 1000 (Submit noOverrides)
            (run [(0, TypeQuery "q"); (0, Submit noOverrides)]
               (initialStore true false)))) = true.
Proof.
  exact (X2_superseded_streams_leave_new_response_empty
           [(0, TypeQuery "q"); (0, Submit noOverrides)]
           [(1200, Deliver 0 (AnswerPiece "old"))] true false 1000
           noOverrides ltac:(vm_compute; discriminate)
           ltac:(repeat constructor)).
Defined.

(** ** Narration switched off *)

Section NarrationOff.

Implicit Types (sc : Scope) (ev : StreamEvent) (st s : Store).

Lemma advanceTo_no_timers t s :
  timers s = [] →
  advanceTo t s = setClock (Z.max (clock s) t) (setTimers [] s).
Proof. intros H. unfold advanceTo. rewrite H. reflexivity. Qed.

Lemma handler_quiet sc ev st :
  sc_agentic sc = false → sc_analyzeStartTime sc = 0 →
  timers (handler sc ev st) = timers st
  ∧ analyzeStartTime (handler sc ev st) = analyzeStartTime st
  ∧ agentic (handler sc ev st) = agentic st
  ∧ disabledAgentic (handler sc ev st) = disabledAgentic st.
Proof.
  intros Ha Hs. destruct ev; cbn; unfold_handlers; rewrite ?Ha, ?Hs; cbn;
    case_ifs; done.
Qed.

Lemma step_narrationOff disabled t (x : Step) s :
  narrationOff disabled s → narrationOff disabled (step t x s).
Proof.
  intros (Ha & Hd & Hs & Ht & Hrq).
  assert (H1 : narrationOff disabled (advanceTo t s)).
  { rewrite (advanceTo_no_timers t s Ht). done. }
  clear Ha Hd Hs Ht Hrq. unfold step.
  set (s1 := advanceTo t s) in *. clearbody s1.
  destruct H1 as (Ha & Hd & Hs & Ht & Hrq).
  destruct x as [q|ov|i ev|]; [done | | | done].
  - unfold onSearch. destruct (String.eqb _ ""); [done|].
    cbn. destruct (lastSearchCancellationToken s1); cbn;
      (split; [exact Ha|]; split; [exact Hd|]; split; [exact Hs|];
       split; [exact Ht|];
       intros r0 [Hin | ->%list_elem_of_singleton]%elem_of_app;
       [apply Hrq, Hin | cbn; done]).
  - destruct (requests s1 !! i) as [rq|] eqn:Hi; [|done].
    rewrite dispatch_cases. destruct (isCancelled (req_token rq) s1); [done|].
    destruct (Hrq rq (list_elem_of_lookup_2 _ _ _ Hi)) as (Hra & _ & Hrs).
    destruct (handler_quiet (req_scope rq) ev s1 Hra Hrs)
      as (Et & Es & Ea & Ed).
    unfold narrationOff. rewrite Et, Es, Ea, Ed, handler_requests. done.
Qed.

Lemma step_phase_narrationOff disabled t (x : Step) s :
  narrationOff disabled s →
  phase (step t x s) = phase s
  ∨ phase (step t x s) = input
  ∨ phase (step t x s) = searching
  ∨ disabled = false ∧ phase (step t x s) = analyzing.
Proof.
  intros (Ha & Hd & Hs & Ht & Hrq).
  assert (H1 : narrationOff disabled (advanceTo t s)).
  { rewrite (advanceTo_no_timers t s Ht). done. }
  assert (Hp : phase (advanceTo t s) = phase s).
  { rewrite (advanceTo_no_timers t s Ht). reflexivity. }
  clear Ha Hd Hs Ht Hrq. unfold step. rewrite <- Hp. clear Hp.
  set (s1 := advanceTo t s) in *. clearbody s1.
  destruct H1 as (Ha & Hd & Hs & Ht & Hrq).
  destruct x as [q|ov|i ev|]; [by left | | | by left].
  - destruct (onSearch_phase_cases (scopeOf s1) ov s1) as [E | E]; eauto.
  - destruct (requests s1 !! i) as [rq|] eqn:Hi; [|by left].
    rewrite dispatch_cases. destruct (isCancelled (req_token rq) s1);
      [by left|].
    destruct (Hrq rq (list_elem_of_lookup_2 _ _ _ Hi)) as (_ & Hrd & _).
    destruct (handler_phase_cases (req_scope rq) ev s1)
      as [E | [E | (_ & Hdis & E)]]; eauto.
    right. right. right. split; [congruence | exact E].
Qed.

End NarrationOff.

(** X3: as long as narration is off (the component's [agentic] flag is
    false) no run ever queues a timer or records an analysis start, and
    the phase is "input" or "searching", or "analyzing" after a relevance
    update when narration is not disabled by the deployment. *)
Theorem X3_narration_off_queues_nothing :
  ∀ (steps : list (Z * Step)) (disabled : bool),
    timers (run steps (initialStore false disabled)) = []
    ∧ analyzeStartTime (run steps (initialStore false disabled)) = 0
    ∧ (phase (run steps (initialStore false disabled)) = input
       ∨ phase (run steps (initialStore false disabled)) = searching
       ∨ disabled = false
         ∧ phase (run steps (initialStore false disabled)) = analyzing).
Proof.
  intros steps disabled.
  assert (H : ∀ s,
             narrationOff disabled s →
             (phase s = input ∨ phase s = searching
              ∨ disabled = false ∧ phase s = analyzing) →
             narrationOff disabled (run steps s)
             ∧ (phase (run steps s) = input ∨ phase (run steps s) = searching
                ∨ disabled = false ∧ phase (run steps s) = analyzing)).
  { induction steps as [|[t x] steps IH]; intros s Hn Hp; [done|].
    cbn [run fold_left fst snd].
    change (fold_left _ steps (step t x s)) with (run steps (step t x s)).
    apply IH; [apply step_narrationOff, Hn|].
    destruct (step_phase_narrationOff disabled t x s Hn)
      as [E | [E | [E | E]]]; rewrite ?E; eauto. }
  destruct (H (initialStore false disabled)) as ((_ & _ & Hs & Ht & _) & Hp).
  - do 4 (split; [reflexivity|]). intros r0 Hin. inversion Hin.
  - by left.
  - done.
Qed.

(** ** What the user sees while a query runs *)

Section Display.

Implicit Types (sc : Scope) (ev : StreamEvent) (st s : Store).

Lemma handler_isFetching sc ev st :
  isFetching (handler sc ev st) =
  if stopsFetching sc ev then false else isFetching st.
Proof.
  destruct ev; cbn; unfold_handlers;
    try (destruct (sc_disabledAgentic sc)); case_ifs; reflexivity.
Qed.

Lemma handler_display_frame sc ev st :
  agenticResults (handler sc ev st) = agenticResults st
  ∧ disabledAgentic (handler sc ev st) = disabledAgentic st.
Proof. destruct ev; cbn; unfold_handlers; case_ifs; done. Qed.

Lemma deliverAll_still_fetching (evs : list (Scope * StreamEvent)) st :
  Forall (fun e => stopsFetching e.1 e.2 = false) evs →
  isFetching (deliverAll evs st) = isFetching st
  ∧ agenticResults (deliverAll evs st) = agenticResults st
  ∧ disabledAgentic (deliverAll evs st) = disabledAgentic st.
Proof.
  intros Hall. revert st. induction Hall as [|[sc ev] evs He _ IH]; intros st;
    [done|].
  cbn in He. unfold deliverAll in *. cbn [fold_left fst snd].
  destruct (IH (handler sc ev st)) as (E1 & E2 & E3).
  destruct (handler_display_frame sc ev st) as (F2 & F3).
  rewrite E1, E2, E3, F2, F3, handler_isFetching, He. done.
Qed.

End Display.

(** X4: after a narrated query has been submitted (narration not
    disabled by the deployment) the result list stays unmounted through
    every update that does not end the fetch, an error included; it is
    mounted again by the first message-id or relevance update. *)
Theorem X4_results_hidden_until_fetch_ends :
  ∀ (sc : Scope) (ov : SearchRequestOverrides) (st : Store)
    (evs : list (Scope * StreamEvent)),
    effectiveQuery sc ov ≠ "" →
    ov_agentic ov = Some true →
    disabledAgentic st = false →
    Forall (fun e => stopsFetching e.1 e.2 = false) evs →
    resultsDisplayed (deliverAll evs (onSearch sc ov st).1) = false
    ∧ (∀ sc' e, resultsDisplayed
                  (handler sc' (ErrorEv e)
                     (deliverAll evs (onSearch sc ov st).1)) = false)
    ∧ (∀ sc' ev, stopsFetching sc' ev = true →
                 resultsDisplayed
                   (handler sc' ev (deliverAll evs (onSearch sc ov st).1))
                 = true).
Proof.
  intros sc ov st evs Hq Hag Hdis Hall.
  destruct (deliverAll_still_fetching evs (onSearch sc ov st).1 Hall)
    as (E1 & E2 & E3).
  assert (Hs : isFetching (onSearch sc ov st).1 = true
               ∧ agenticResults (onSearch sc ov st).1 = Some true
               ∧ disabledAgentic (onSearch sc ov st).1 = false).
  { unfold onSearch.
    destruct (String.eqb_spec (effectiveQuery sc ov) "") as [E|_]; [done|].
    cbn. destruct (lastSearchCancellationToken st); cbn; done. }
  destruct Hs as (S1 & S2 & S3).
  assert (Hshow : ∀ sc' ev,
             resultsDisplayed
               (handler sc' ev (deliverAll evs (onSearch sc ov st).1)) =
             stopsFetching sc' ev).
  { intros sc' ev. unfold resultsDisplayed.
    destruct (handler_display_frame sc' ev
                (deliverAll evs (onSearch sc ov st).1)) as (F2 & F3).
    rewrite F2, F3, handler_isFetching, E1, E2, E3, S1, S2, S3.
    destruct (stopsFetching sc' ev); reflexivity. }
  split; [|split].
  - unfold resultsDisplayed. rewrite E1, E2, E3, S1, S2, S3. reflexivity.
  - intros sc' e. rewrite Hshow. reflexivity.
  - intros sc' ev Hstop. rewrite Hshow. exact Hstop.
Qed.

(** Documents, an answer and quotes of a narrated query. *)
Lemma X4_witness_documents_answer_quotes :
  resultsDisplayed
    (deliverAll [(mkScope "q" true false 0, DocsEv [mkDocument "d1" "text"]);
                 (mkScope "q" true false 0, AnswerPiece "a");
                 (mkScope "q" true false 0, QuotesEv [])]
       (onSearch (mkScope "q" true false 0)
          (mkOverrides None (Some true) (Some 0) None)
          (initialStore true false)).1) = false.
Proof.
  exact (proj1 (X4_results_hidden_until_fetch_ends
                  (mkScope "q" true false 0)
                  (mkOverrides None (Some true) (Some 0) None)
                  (initialStore true false)
                  [(mkScope "q" true false 0, DocsEv [mkDocument "d1" "text"]);
                   (mkScope "q" true false 0, AnswerPiece "a");
                   (mkScope "q" true false 0, QuotesEv [])]
                  ltac:(discriminate) eq_refl eq_refl
                  ltac:(repeat constructor))).
Defined.

(** X5: an answer update whose handler holds no analysis start only
    merges the answer; with an analysis start, every update that arrives
    in the k-th 1.5 s interval after it (its end included) is due at the
    end of that interval, so an update arriving exactly on a boundary,
    the analysis start itself included, is due at once. *)
Theorem X5_answer_updates_share_the_interval_end :
  ∀ (sc : Scope) (a : string) (st : Store),
    (sc_analyzeStartTime sc = 0 →
     updateCurrentAnswer sc a st = setSearchResponse (withAnswer a) st)
    ∧ (∀ k : Z,
          sc_analyzeStartTime sc ≠ 0 →
          sc_analyzeStartTime sc + (k - 1) * 1500 < clock st
            ≤ sc_analyzeStartTime sc + k * 1500 →
          timers (updateCurrentAnswer sc a st) =
          (timers st ++
             [mkTimer (sc_analyzeStartTime sc + k * 1500) ToGenerating])%list)
    ∧ (∀ k : Z,
          sc_analyzeStartTime sc ≠ 0 →
          clock st = sc_analyzeStartTime sc + k * 1500 →
          timers (updateCurrentAnswer sc a st) =
          (timers st ++ [mkTimer (clock st) ToGenerating])%list).
Proof.
  intros sc a st.
  assert (Hk : ∀ k : Z,
             sc_analyzeStartTime sc ≠ 0 →
             sc_analyzeStartTime sc + (k - 1) * 1500 < clock st
               ≤ sc_analyzeStartTime sc + k * 1500 →
             timers (updateCurrentAnswer sc a st) =
             (timers st ++
                [mkTimer (sc_analyzeStartTime sc + k * 1500) ToGenerating])%list).
  { intros k Hs Hint. unfold updateCurrentAnswer.
    destruct (Z.eqb_spec (sc_analyzeStartTime sc) 0) as [E|_]; [done|].
    cbn.
    pose proof (ceilDiv_bounds (clock st - sc_analyzeStartTime sc) 1500
                  ltac:(lia)) as Hb.
    assert (ceilDiv (clock st - sc_analyzeStartTime sc) 1500 = k) as -> by nia.
    do 2 f_equal. f_equal. lia. }
  split; [|split].
  - intros Hz. unfold updateCurrentAnswer. rewrite Hz. reflexivity.
  - exact Hk.
  - intros k Hs Hc. rewrite (Hk k Hs) by lia. rewrite Hc. reflexivity.
Qed.

(** Analysis start 4500; arrivals at 6000 (on a boundary) and at 6001. *)
Lemma X5_witness_on_and_after_a_boundary :
  timers (updateCurrentAnswer (mkScope "q" true false 4500) "a"
            (setClock 6000 (initialStore true false))) =
    [mkTimer 6000 ToGenerating]
  ∧ timers (updateCurrentAnswer (mkScope "q" true false 4500) "a"
              (setClock 6001 (initialStore true false))) =
      [mkTimer 7500 ToGenerating].
Proof.
  split.
  - exact (proj2 (proj2 (X5_answer_updates_share_the_interval_end
                           (mkScope "q" true false 4500) "a"
                           (setClock 6000 (initialStore true false))))
             1 ltac:(cbn; lia) eq_refl).
  - exact (proj1 (proj2 (X5_answer_updates_share_the_interval_end
                           (mkScope "q" true false 4500) "a"
                           (setClock 6001 (initialStore true false))))
             2 ltac:(cbn; lia) ltac:(cbn; lia)).
Defined.

(** ** More on the displayed quotes *)

Lemma firstOccurrences_distinct (l : list Quote) :
  NoDup (document_id <$> l) → firstOccurrences l = l.
Proof.
  induction l as [|q l IH] using rev_ind; [reflexivity|].
  rewrite fmap_app. intros (Hl & Hq & _)%NoDup_app.
  rewrite firstOccurrences_snoc, (IH Hl).
  rewrite decide_False; [reflexivity|].
  intros Hin. apply (Hq _ Hin). cbn. left.
Qed.

(** X6: de-duplicating the displayed quotes again changes nothing; a list
    whose document ids are all different is displayed as it is; and the
    displayed list is never longer than the list received. *)
Theorem X6_dedupedQuotes_idempotent :
  ∀ l : list Quote,
    dedupedQuotes (Some (dedupedQuotes (Some l))) = dedupedQuotes (Some l)
    ∧ (NoDup (document_id <$> l) → dedupedQuotes (Some l) = l)
    ∧ (length (dedupedQuotes (Some l)) ≤ length l)%nat.
Proof.
  intros l.
  assert (Heq : ∀ k, dedupedQuotes (Some k) = firstOccurrences k)
    by (intros k; unfold dedupedQuotes; rewrite dedup_fold; reflexivity).
  rewrite !Heq. split; [|split].
  - apply firstOccurrences_distinct, firstOccurrences_NoDup.
  - apply firstOccurrences_distinct.
  - apply sublist_length, firstOccurrences_sublist.
Qed.

(** Two quotes of different documents. *)
Lemma X6_witness_distinct_quotes :
  dedupedQuotes (Some [mkQuote "a" "x" ""; mkQuote "b" "y" ""]) =
  [mkQuote "a" "x" ""; mkQuote "b" "y" ""].
Proof.
  exact (proj1 (proj2 (X6_dedupedQuotes_idempotent
                         [mkQuote "a" "x" ""; mkQuote "b" "y" ""]))
           ltac:(repeat constructor; set_solver)).
Defined.

(** ** Loading a stored session *)

Section SessionLoad.

Lemma find_first {A : Type} (p : A → bool) (l : list A) (x : A) :
  List.find p l = Some x ↔
  ∃ i, l !! i = Some x ∧ p x = true
       ∧ ∀ j y, (j < i)%nat → l !! j = Some y → p y = false.
Proof.
  induction l as [|a l IH]; cbn.
  - split; [done | intros (i & Hi & _); inversion Hi].
  - destruct (p a) eqn:Ha.
    + split.
      * intros [= <-]. exists 0%nat. split; [done|]. split; [done|]. lia.
      * intros (i & Hi & Hx & Hbefore). destruct i as [|i]; [cbn in Hi; done|].
        specialize (Hbefore 0%nat a ltac:(lia) eq_refl). congruence.
    + rewrite IH. split.
      * intros (i & Hi & Hx & Hbefore). exists (S i). split; [done|].
        split; [done|]. intros [|j] y Hj Hy; cbn in Hy; [congruence|].
        apply (Hbefore j y); [lia | done].
      * intros (i & Hi & Hx & Hbefore). destruct i as [|i].
        -- cbn in Hi. congruence.
        -- exists i. split; [done|]. split; [done|].
           intros j y Hj Hy. apply (Hbefore (S j) y); [lia | done].
Qed.

Lemma extractFirstMessageByType_spec (s : SearchSession) (ty text : string) :
  extractFirstMessageByType (Some s) ty = Some text ↔
  ∃ i msg, messages s !! i = Some msg ∧ message_type msg = ty
           ∧ message msg = text
           ∧ ∀ j y, (j < i)%nat → messages s !! j = Some y →
                    message_type y ≠ ty.
Proof.
  unfold extractFirstMessageByType.
  destruct (List.find _ (messages s)) as [m|] eqn:Hf.
  - apply find_first in Hf as (i & Hi & Hm & Hbefore).
    apply String.eqb_eq in Hm. split.
    + intros [= <-]. exists i, m. split; [done|]. split; [done|].
      split; [done|]. intros j y Hj Hy. apply String.eqb_neq, (Hbefore j y Hj Hy).
    + intros (i' & m' & Hi' & Hty & Htext & Hbefore').
      destruct (Nat.lt_trichotomy i i') as [Hlt | [-> | Hlt]].
      * exfalso. apply (Hbefore' i m Hlt Hi Hm).
      * congruence.
      * specialize (Hbefore i' m' Hlt Hi'). apply String.eqb_neq in Hbefore.
        done.
  - split; [done|]. intros (i & m & Hi & Hty & _).
    apply find_none with (x := m) in Hf.
    + apply String.eqb_neq in Hf. done.
    + apply list_elem_of_In, list_elem_of_lookup. eauto.
Qed.

Lemma orElse_nonempty (s : option string) (d : string) :
  d ≠ "" → orElse s d ≠ "".
Proof.
  intros Hd. unfold orElse. destruct s as [x|]; [|exact Hd].
  destruct (String.eqb_spec x ""); done.
Qed.

End SessionLoad.

(** X7: [extractFirstMessageByType] returns the text of the first message
    of the requested type, and nothing when the session is missing.
    Loading a stored session does nothing unless that first user message
    is a non-empty text; otherwise the query becomes that text, the
    answer is the first assistant message or, when that is missing or
    empty, "Search response not found" (so never empty), the documents
    are those stored with the session and the message id is the search
    id parsed from the URL (null without one); quotes, error, the
    suggested search and flow types and the selected indices are null and
    the additional relevance is undefined; the fetch is marked finished,
    and the phase, the timers and the token of a stream in flight are
    left as they are. *)
Theorem X7_stored_session_load :
  ∀ (searchSession : option SearchSession) (searchId : option Z) (st : Store),
    extractFirstMessageByType None "user" = None
    ∧ (∀ s ty text,
          extractFirstMessageByType (Some s) ty = Some text ↔
          ∃ i msg, messages s !! i = Some msg ∧ message_type msg = ty
                   ∧ message msg = text
                   ∧ ∀ j y, (j < i)%nat → messages s !! j = Some y →
                            message_type y ≠ ty)
    ∧ (orElse (extractFirstMessageByType searchSession "user") "" = "" →
       initialSessionFetch searchSession searchId st = st)
    ∧ (∀ s u,
          searchSession = Some s →
          extractFirstMessageByType searchSession "user" = Some u →
          u ≠ "" →
          query (initialSessionFetch searchSession searchId st) = u
          ∧ searchResponse (initialSessionFetch searchSession searchId st) =
              mkSearchResponse
                (Some (orElse (extractFirstMessageByType searchSession
                                 "assistant")
                         "Search response not found"))
                None (Some (session_documents s)) None None None None
                searchId None
          ∧ answer (searchResponse
                      (initialSessionFetch searchSession searchId st))
              ≠ Some ""
          ∧ isFetching (initialSessionFetch searchSession searchId st) = false
          ∧ firstSearch (initialSessionFetch searchSession searchId st) = false
          ∧ contentEnriched (initialSessionFetch searchSession searchId st)
              = true
          ∧ phase (initialSessionFetch searchSession searchId st) = phase st
          ∧ timers (initialSessionFetch searchSession searchId st) = timers st
          ∧ tokens (initialSessionFetch searchSession searchId st) = tokens st).
Proof.
  intros searchSession searchId st.
  split; [reflexivity|]. split; [exact extractFirstMessageByType_spec|].
  split.
  - unfold initialSessionFetch, orElse.
    destruct (extractFirstMessageByType searchSession "user") as [u|];
      [|done].
    destruct searchSession as [s|]; [|done].
    destruct (String.eqb_spec u ""); done.
  - intros s u -> Hu Hne. unfold initialSessionFetch. rewrite Hu.
    destruct (String.eqb_spec u "") as [E|_]; [done|]. cbn.
    repeat split.
    intros [= E]. revert E. apply orElse_nonempty. done.
Qed.

(** A stored session with a question and no answer. *)
Lemma X7_witness_question_without_answer :
  answer (searchResponse
            (initialSessionFetch
               (Some (mkSearchSession [mkMessage "user" "why?"] []))
               (Some 7) (initialStore true false)))
  = Some "Search response not found".
Proof.
  exact (f_equal answer
           (proj1 (proj2 (proj2 (proj2 (proj2 (X7_stored_session_load
              (Some (mkSearchSession [mkMessage "user" "why?"] []))
              (Some 7) (initialStore true false))))
              (mkSearchSession [mkMessage "user" "why?"] []) "why?"
              eq_refl eq_refl ltac:(discriminate))))).
Defined.

(** ** The first query of a session *)

Section FirstQuery.

Implicit Types (st s : Store).

Lemma step_firstStreamQuiet t (x : Step) s :
  firstStreamQuiet s → firstStreamQuiet (step t x s).
Proof.
  intros [Hnone Hfirst].
  assert (H1 : firstStreamQuiet (advanceTo t s)).
  { split; rewrite advanceTo_requests; [|exact Hfirst].
    intros Hr. destruct (Hnone Hr) as [Ha Ht].
    rewrite (advanceTo_no_timers t s Ht). done. }
  clear Hnone Hfirst. unfold step.
  set (s1 := advanceTo t s) in *. clearbody s1.
  destruct H1 as [Hnone Hfirst].
  destruct x as [q|ov|i ev|]; [done | | | done].
  - unfold onSearch. destruct (String.eqb _ ""); [done|].
    cbn. split.
    + intros Habs. exfalso.
      destruct (lastSearchCancellationToken s1); cbn in Habs;
        destruct (requests s1); done.
    + intros rq.
      destruct (lastSearchCancellationToken s1); cbn;
        destruct (requests s1) as [|r0 rest] eqn:Hr; cbn; intros [= <-];
        first [ apply (proj1 (Hnone eq_refl)) | apply Hfirst; reflexivity ].
  - destruct (requests s1 !! i) as [rq|] eqn:Hi; [|done].
    rewrite dispatch_cases. destruct (isCancelled (req_token rq) s1); [done|].
    unfold firstStreamQuiet. rewrite handler_requests.
    split; [|exact Hfirst].
    intros Hr. rewrite Hr in Hi. inversion Hi.
Qed.

Lemma run_firstStreamQuiet (steps : list (Z * Step)) s :
  firstStreamQuiet s → firstStreamQuiet (run steps s).
Proof.
  revert s. induction steps as [|[t x] steps IH]; intros s H; [exact H|].
  cbn. apply IH, step_firstStreamQuiet, H.
Qed.

End FirstQuery.

(** X16: the callbacks of the first query of a session are those of a
    render in which no analysis start was recorded (the initial 0): an
    answer update of that stream only merges the answer, it never queues
    the "generating" timer and leaves the phase alone, whatever the store
    has recorded meanwhile. *)
Theorem X16_first_stream_never_schedules_generating :
  ∀ (steps : list (Z * Step)) (narration disabled : bool) (rq : Request)
    (a : string),
    requests (run steps (initialStore narration disabled)) !! 0%nat = Some rq →
    sc_analyzeStartTime (req_scope rq) = 0
    ∧ handler (req_scope rq) (AnswerPiece a)
        (run steps (initialStore narration disabled)) =
      setSearchResponse (withAnswer a)
        (run steps (initialStore narration disabled)).
Proof.
  intros steps narration disabled rq a Hrq.
  assert (Hq : firstStreamQuiet (run steps (initialStore narration disabled))).
  { apply run_firstStreamQuiet. split; [done|]. intros r0 H. inversion H. }
  pose proof (proj2 Hq rq Hrq) as Hs. split; [exact Hs|].
  cbn. unfold updateCurrentAnswer. rewrite Hs. reflexivity.
Qed.

(** Documents at t = 0, analysis recorded at 4500, an answer at 5000. *)
Lemma X16_witness_answer_during_analysis :
  sc_analyzeStartTime (req_scope (mkRequest "q" None 0 (mkScope "q" true false 0)))
    = 0
  ∧ handler (req_scope (mkRequest "q" None 0 (mkScope "q" true false 0)))
      (AnswerPiece "token")
      (run [(0, TypeQuery "q"); (0, Submit noOverrides);
            (0, Deliver 0 (DocsEv [mkDocument "d1" "text"])); (5000, Idle)]
         (initialStore true false)) =
    setSearchResponse (withAnswer "token")
      (run [(0, TypeQuery "q"); (0, Submit noOverrides);
            (0, Deliver 0 (DocsEv [mkDocument "d1" "text"])); (5000, Idle)]
         (initialStore true false)).
Proof.
  exact (X16_first_stream_never_schedules_generating
           [(0, TypeQuery "q"); (0, Submit noOverrides);
            (0, Deliver 0 (DocsEv [mkDocument "d1" "text"])); (5000, Idle)]
           true false (mkRequest "q" None 0 (mkScope "q" true false 0))
           "token" eq_refl).
Defined.

(** * Further properties of the assistant editor *)

(** ** The tools offered *)

Section Tools.

Import AssistantEditor EditorForm.

Implicit Types (tools : list ToolSnapshot) (tool : ToolSnapshot)
         (code : string).

Lemma hasCode_true code tool :
  hasCode code tool = true ↔ in_code_tool_id tool = Some code.
Proof. unfold hasCode. apply bool_decide_eq_true. Qed.

(** On the tools of the list, differing from what [find] found is not
    carrying the code searched for. *)
Lemma differsFrom_find code tools tool :
  tool ∈ tools →
  differsFrom (List.find (hasCode code) tools) tool = negb (hasCode code tool).
Proof.
  intros Hin. unfold differsFrom.
  destruct (List.find (hasCode code) tools) as [f|] eqn:Hf.
  - apply find_some in Hf as [_ Hc%hasCode_true]. rewrite Hc. reflexivity.
  - apply list_elem_of_In in Hin.
    rewrite (find_none _ _ Hf tool Hin). reflexivity.
Qed.

Lemma filter_none {A : Type} (p : A → bool) (l : list A) :
  (∀ x, x ∈ l → p x = false) → List.filter p l = [].
Proof.
  intros H. rewrite (filter_ext_in p (fun _ => false)).
  - apply filter_false.
  - intros a Ha. apply H, list_elem_of_In, Ha.
Qed.

(** When no two tools share a code, the tools carrying a code are the one
    [find] returns, if any. *)
Lemma filter_hasCode_find code tools :
  NoDup (omap in_code_tool_id tools) →
  List.filter (hasCode code) tools = optional (List.find (hasCode code) tools).
Proof.
  induction tools as [|a tools IH]; [reflexivity|].
  cbn [List.filter List.find omap list_omap].
  destruct (hasCode code a) eqn:Ha.
  - apply hasCode_true in Ha. rewrite Ha. intros [Hnin _]%NoDup_cons.
    cbn. f_equal. apply filter_none. intros x Hx.
    destruct (hasCode code x) eqn:Hcx; [|reflexivity].
    exfalso. apply Hnin, list_elem_of_omap. exists x.
    split; [exact Hx | apply hasCode_true, Hcx].
  - intros Hnd. apply IH.
    destruct (in_code_tool_id a); [apply NoDup_cons in Hnd as [_ Hnd]|];
      exact Hnd.
Qed.

(** A list splits into the elements passing one of three exclusive tests
    and the rest. *)
Lemma split_by_three_tests {A : Type} (p1 p2 p3 : A → bool) (l : list A) :
  (∀ x, p1 x = true → p2 x = false ∧ p3 x = false) →
  (∀ x, p2 x = true → p3 x = false) →
  (List.filter (fun x => negb (p1 x) && negb (p2 x) && negb (p3 x)) l
   ++ List.filter p1 l ++ List.filter p2 l ++ List.filter p3 l)%list ≡ₚ l.
Proof.
  intros H1 H2. induction l as [|a l IH]; [reflexivity|].
  cbn [List.filter].
  destruct (p1 a) eqn:E1; [destruct (H1 a E1) as [E2 E3]; rewrite E2, E3|].
  - cbn. symmetry. apply Permutation_cons_app. symmetry. exact IH.
  - destruct (p2 a) eqn:E2; [rewrite (H2 a E2)|].
    + cbn. symmetry. rewrite app_assoc. apply Permutation_cons_app.
      rewrite <- app_assoc. symmetry. exact IH.
    + destruct (p3 a) eqn:E3; cbn.
      * symmetry. rewrite !app_assoc. apply Permutation_cons_app.
        rewrite <- !app_assoc. symmetry. exact IH.
      * apply Permutation_skip, IH.
Qed.

Lemma enabledToolsMap_lookup (current : list nat) (available : list ToolSnapshot)
  (j : nat) :
  enabledToolsMap current available !! j =
  if decide (j ∈ id <$> available) then Some (bool_decide (j ∈ current))
  else None.
Proof.
  unfold enabledToolsMap.
  induction available as [|a available IH] using rev_ind; [reflexivity|].
  rewrite fold_left_app, fmap_app. cbn.
  destruct (decide (id a = j)) as [<-|Hne].
  - rewrite lookup_insert_eq. rewrite decide_True; [reflexivity|].
    apply elem_of_app. right. left.
  - rewrite lookup_insert_ne by done. rewrite IH.
    destruct (decide (j ∈ id <$> available)) as [Hin|Hnin].
    + rewrite decide_True; [reflexivity|]. apply elem_of_app. by left.
    + rewrite decide_False; [reflexivity|].
      intros [H | H%list_elem_of_singleton]%elem_of_app; done.
Qed.

Lemma enabledTools_elem (m : gmap nat bool) (j : nat) :
  j ∈ enabledTools m ↔ m !! j = Some true.
Proof.
  unfold enabledTools. rewrite list_elem_of_filter. split; [by intros [H _]|].
  intros H. split; [exact H|].
  rewrite merge_sort_Permutation.
  apply list_elem_of_fmap. exists (j, true). split; [reflexivity|].
  apply elem_of_map_to_list. exact H.
Qed.

(** The enabled ids come in ascending order, as [Object.keys] gives
    them. *)
Lemma enabledTools_ascending (m : gmap nat bool) :
  StronglySorted Nat.le (enabledTools m).
Proof.
  unfold enabledTools.
  pose proof (StronglySorted_merge_sort Nat.le (map_to_list m).*1) as Hs.
  induction Hs as [|x l Hl IH Hx]; [constructor|].
  rewrite filter_cons. destruct (decide (m !! x = Some true)); [|exact IH].
  constructor; [exact IH|].
  rewrite Forall_forall in Hx. apply Forall_forall.
  intros y [_ Hy]%list_elem_of_filter. apply Hx, Hy.
Qed.

End Tools.

(** X8: when no two tools of the backend share an in-code id, the tools
    the editor offers (custom tools, then search, image generation and
    internet search) are the backend's tools, each exactly once; and
    when no provider is "openai" the image generation tool is not left
    out but listed among the custom tools. *)
Theorem X8_available_tools_are_the_tools :
  ∀ (llmProviders : list EditorForm.FullLLMProvider)
    (tools : list EditorForm.ToolSnapshot),
    NoDup (omap EditorForm.in_code_tool_id tools) →
    EditorForm.availableTools llmProviders tools ≡ₚ tools
    ∧ (EditorForm.providerSupportingImageGenerationExists llmProviders = false →
       ∀ tool, tool ∈ tools →
               EditorForm.in_code_tool_id tool = Some "ImageGenerationTool" →
               tool ∈ EditorForm.customTools llmProviders tools).
Proof.
  intros llmProviders tools Hnd.
  set (flag := EditorForm.providerSupportingImageGenerationExists llmProviders).
  set (pS := EditorForm.hasCode "SearchTool").
  set (pI := fun t => flag && EditorForm.hasCode "ImageGenerationTool" t).
  set (pN := EditorForm.hasCode "InternetSearchTool").
  assert (Hcustom : EditorForm.customTools llmProviders tools =
                    List.filter (fun x => negb (pS x) && negb (pI x)
                                          && negb (pN x)) tools).
  { unfold EditorForm.customTools. apply filter_ext_in. intros a Ha.
    apply list_elem_of_In in Ha.
    unfold EditorForm.findSearchTool, EditorForm.findInternetSearchTool.
    rewrite !differsFrom_find by exact Ha. f_equal. f_equal.
    unfold EditorForm.imageGenerationTool, pI. fold flag.
    destruct flag; [|reflexivity].
    unfold EditorForm.findImageGenerationTool.
    rewrite differsFrom_find by exact Ha. reflexivity. }
  split.
  - unfold EditorForm.availableTools. rewrite Hcustom.
    unfold EditorForm.findSearchTool, EditorForm.findInternetSearchTool.
    rewrite <- !filter_hasCode_find by exact Hnd.
    assert (HI : EditorForm.optional
                   (EditorForm.imageGenerationTool llmProviders tools) =
                 List.filter pI tools).
    { unfold EditorForm.imageGenerationTool, pI. fold flag.
      destruct flag; cbn.
      - unfold EditorForm.findImageGenerationTool.
        rewrite <- filter_hasCode_find by exact Hnd. reflexivity.
      - symmetry. apply filter_false. }
    rewrite HI. apply split_by_three_tests.
    + intros x Hx. apply hasCode_true in Hx. unfold pI, pN, EditorForm.hasCode.
      rewrite Hx. split; [destruct flag|]; reflexivity.
    + intros x Hx. unfold pI in Hx. apply andb_true_iff in Hx as [_ Hx].
      apply hasCode_true in Hx. unfold pN, EditorForm.hasCode.
      rewrite Hx. reflexivity.
  - intros Hflag tool Hin Hcode. rewrite Hcustom.
    apply list_elem_of_In, filter_In. split; [apply list_elem_of_In, Hin|].
    unfold pS, pI, pN, EditorForm.hasCode. fold flag in Hflag.
    rewrite Hcode, Hflag. reflexivity.
Qed.

(** A custom tool, the search tool and the image tool, with an OpenAI
    provider. *)
Lemma X8_witness_three_tools :
  EditorForm.availableTools [EditorForm.mkProvider "OpenAI" "openai"]
    [EditorForm.mkTool 1 "SearchTool" (Some "SearchTool");
     EditorForm.mkTool 2 "Jira" None;
     EditorForm.mkTool 3 "ImageGenerationTool" (Some "ImageGenerationTool")]
  ≡ₚ [EditorForm.mkTool 1 "SearchTool" (Some "SearchTool");
      EditorForm.mkTool 2 "Jira" None;
      EditorForm.mkTool 3 "ImageGenerationTool" (Some "ImageGenerationTool")].
Proof.
  exact (proj1 (X8_available_tools_are_the_tools
                  [EditorForm.mkProvider "OpenAI" "openai"]
                  [EditorForm.mkTool 1 "SearchTool" (Some "SearchTool");
                   EditorForm.mkTool 2 "Jira" None;
                   EditorForm.mkTool 3 "ImageGenerationTool"
                     (Some "ImageGenerationTool")]
                  ltac:(cbn; repeat constructor; set_solver))).
Defined.

(** ** Selecting tools *)

Section ToolSelection.

Import AssistantEditor EditorForm.

Lemma searchToolEnabled_lookup (i : nat) (m : gmap nat bool) :
  searchToolEnabled (Some i) m = default false (m !! i).
Proof.
  unfold searchToolEnabled.
  destruct (m !! i) as [[]|] eqn:E; cbn.
  - apply bool_decide_eq_true_2, enabledTools_elem, E.
  - apply bool_decide_eq_false_2. rewrite enabledTools_elem. congruence.
  - apply bool_decide_eq_false_2. rewrite enabledTools_elem. congruence.
Qed.

Lemma toggleToolInValues_lookup (m : gmap nat bool) (i j : nat) :
  toggleToolInValues m i !! j =
  if decide (i = j) then Some (negb (default false (m !! i))) else m !! j.
Proof. unfold toggleToolInValues. apply lookup_insert. Qed.

Lemma digits_fold (l : list Ascii.ascii) (acc : Z) :
  forallb isDigit l = true → 0 ≤ acc →
  0 ≤ fold_left (fun a c => 10 * a + (Z.of_nat (Ascii.nat_of_ascii c) - 48))
        l acc
  ∧ (fold_left (fun a c => 10 * a + (Z.of_nat (Ascii.nat_of_ascii c) - 48))
       l acc = 0
     ↔ acc = 0 ∧ Forall (fun c => Ascii.nat_of_ascii c = 48%nat) l).
Proof.
  revert acc. induction l as [|c l IH]; intros acc Hd Hacc; cbn.
  - split; [exact Hacc|]. split; [by intros -> | by intros [-> _]].
  - cbn in Hd. apply andb_true_iff in Hd as [Hc Hl].
    unfold isDigit in Hc. apply andb_true_iff in Hc as [Hlo Hhi].
    apply Nat.leb_le in Hlo, Hhi.
    destruct (IH (10 * acc + (Z.of_nat (Ascii.nat_of_ascii c) - 48)) Hl
                ltac:(lia)) as [Hpos Hzero].
    split; [exact Hpos|]. rewrite Hzero. split.
    + intros [Hz Hall]. split; [lia|]. constructor; [lia | exact Hall].
    + intros [-> Hall]. apply Forall_cons in Hall as [Hc Hall].
      split; [lia | exact Hall].
Qed.

End ToolSelection.

(** X9: the form starts with one entry per offered tool, checked exactly
    for the tools the assistant already has.  Clicking a tool flips that
    tool and no other, clicking twice restores the selection, and the
    test that shows the search configuration agrees with the test the
    submit handler uses for [num_chunks]. *)
Theorem X9_tool_checkboxes :
  ∀ (current : list nat) (available : list EditorForm.ToolSnapshot)
    (m : gmap nat bool) (i j : nat),
    (j ∈ AssistantEditor.enabledTools
           (EditorForm.enabledToolsMap current available)
     ↔ j ∈ EditorForm.id <$> available ∧ j ∈ current)
    ∧ (j ∈ AssistantEditor.enabledTools (EditorForm.toggleToolInValues m i)
       ↔ if decide (j = i) then j ∉ AssistantEditor.enabledTools m
         else j ∈ AssistantEditor.enabledTools m)
    ∧ (j ∈ AssistantEditor.enabledTools
             (EditorForm.toggleToolInValues
                (EditorForm.toggleToolInValues m i) i)
       ↔ j ∈ AssistantEditor.enabledTools m)
    ∧ EditorForm.searchToolChecked (Some i) m =
        AssistantEditor.searchToolEnabled (Some i) m
    ∧ AssistantEditor.searchToolEnabled (Some i)
        (EditorForm.toggleToolInValues m i) =
        negb (AssistantEditor.searchToolEnabled (Some i) m).
Proof.
  intros current available m i j.
  split; [|split; [|split; [|split]]].
  - rewrite enabledTools_elem, enabledToolsMap_lookup.
    destruct (decide (j ∈ EditorForm.id <$> available)) as [Hin|Hnin].
    + split.
      * intros [= H]. split; [exact Hin|]. apply bool_decide_eq_true in H.
        exact H.
      * intros [_ H]. f_equal. apply bool_decide_eq_true_2, H.
    + split; [done | intros [H _]; done].
  - rewrite !enabledTools_elem, toggleToolInValues_lookup.
    destruct (decide (j = i)) as [->|Hne].
    + rewrite decide_True by done.
      destruct (m !! i) as [[]|] eqn:E; cbn; split; intros H; try done;
        first [ exfalso; apply H, enabledTools_elem, E
              | rewrite enabledTools_elem; congruence ].
    + rewrite decide_False by done. symmetry. apply enabledTools_elem.
  - rewrite !enabledTools_elem, !toggleToolInValues_lookup.
    destruct (decide (i = j)) as [->|Hne]; [|reflexivity].
    rewrite decide_True by done. cbn.
    destruct (m !! j) as [[]|]; cbn; split; intros H;
      first [done | by destruct H].
  - rewrite searchToolEnabled_lookup. reflexivity.
  - rewrite !searchToolEnabled_lookup, toggleToolInValues_lookup.
    rewrite decide_True by done. reflexivity.
Qed.

(** X10: clicking the search tool checkbox clears the chunk count, so a
    submission right after sends 10 when the click enabled the tool and 0
    when it disabled it.  A text the chunk count field refuses leaves the
    form as it was; with the search tool enabled an accepted text is sent
    as a non-negative count, 10 for the empty text, and the count sent is
    0 exactly when the text is not empty and made of zeros only. *)
Theorem X10_chunk_count_after_edits :
  ∀ (i : nat) (values : EditorForm.ToolValues) (value : string),
    EditorForm.submittedNumChunks (Some i)
      (EditorForm.searchToolChange i values) =
      (if AssistantEditor.searchToolEnabled (Some i)
            (EditorForm.enabled_tools_map values)
       then AssistantEditor.VNumber 0 else AssistantEditor.VNumber 10)
    ∧ (AssistantEditor.fieldAccepts value = false →
       EditorForm.numChunksChange value values = values)
    ∧ (AssistantEditor.fieldAccepts value = true →
       AssistantEditor.searchToolEnabled (Some i)
         (EditorForm.enabled_tools_map values) = true →
       ∃ n : Z,
         AssistantEditor.chunkCount
           (EditorForm.submittedNumChunks (Some i)
              (EditorForm.numChunksChange value values)) = Some n
         ∧ 0 ≤ n
         ∧ (value = "" → n = 10)
         ∧ (n = 0 ↔ value ≠ ""
                    ∧ Forall (fun c => Ascii.nat_of_ascii c = 48%nat)
                        (list_ascii_of_string value))).
Proof.
  intros i values value. split; [|split].
  - unfold EditorForm.submittedNumChunks, EditorForm.searchToolChange.
    cbn [EditorForm.enabled_tools_map EditorForm.num_chunks].
    rewrite !searchToolEnabled_lookup, toggleToolInValues_lookup.
    rewrite decide_True by done. cbn.
    destruct (default false (EditorForm.enabled_tools_map values !! i));
      reflexivity.
  - intros H. unfold EditorForm.numChunksChange. rewrite H. reflexivity.
  - intros Hacc Hon.
    unfold EditorForm.submittedNumChunks, EditorForm.numChunksChange.
    rewrite Hacc. cbn [EditorForm.enabled_tools_map EditorForm.num_chunks].
    rewrite Hon.
    unfold AssistantEditor.fieldAccepts in Hacc.
    unfold AssistantEditor.numChunks, AssistantEditor.truthy,
      AssistantEditor.chunkCount.
    destruct (String.eqb value "") eqn:E; cbn [negb orb andb] in *.
    + apply String.eqb_eq in E. exists 10.
      split; [reflexivity|]. split; [lia|]. split; [done|].
      split; [lia | intros [H _]; done].
    + apply String.eqb_neq in E. rewrite Hacc.
      rewrite (proj2 (String.eqb_neq value "") E). cbn [negb andb].
      destruct (digits_fold (list_ascii_of_string value) 0 Hacc ltac:(lia))
        as [Hpos Hzero].
      exists (AssistantEditor.digitsValue value).
      split; [reflexivity|]. split; [exact Hpos|]. split; [done|].
      unfold AssistantEditor.digitsValue. rewrite Hzero. split.
      * intros [_ H]. done.
      * intros [_ H]. done.
Qed.

(** The text "007" typed with the search tool (tool 1) enabled. *)
Lemma X10_witness_typed_007 :
  ∃ n : Z,
    AssistantEditor.chunkCount
      (EditorForm.submittedNumChunks (Some 1%nat)
         (EditorForm.numChunksChange "007"
            (EditorForm.mkToolValues {[1%nat := true]} AssistantEditor.VNull)))
    = Some n
    ∧ 0 ≤ n
    ∧ ("007" = "" → n = 10)
    ∧ (n = 0 ↔ "007" ≠ ""
               ∧ Forall (fun c => Ascii.nat_of_ascii c = 48%nat)
                   (list_ascii_of_string "007")).
Proof.
  exact (proj2 (proj2 (X10_chunk_count_after_edits 1%nat
                  (EditorForm.mkToolValues {[1%nat := true]}
                     AssistantEditor.VNull) "007"))
           eq_refl (eq_trans (searchToolEnabled_lookup 1 _) eq_refl)).
Defined.

(** X11: the [tool_ids] submitted are the tools checked in the form,
    except that the image generation tool is left out when the selected
    model does not take image input. *)
Theorem X11_submitted_tool_ids :
  ∀ (imageTool : option nat) (supportsImageInput : bool)
    (m : gmap nat bool) (j : nat),
    j ∈ EditorForm.submittedToolIds imageTool supportsImageInput m
    ↔ m !! j = Some true
      ∧ ¬ (imageTool = Some j ∧ supportsImageInput = false).
Proof.
  intros imageTool supportsImageInput m j.
  unfold EditorForm.submittedToolIds.
  destruct imageTool as [i|]; cbn.
  - destruct (bool_decide_reflect (i ∈ AssistantEditor.enabledTools m))
      as [Hin|Hnin].
    + destruct supportsImageInput; cbn.
      * rewrite enabledTools_elem. split; [|by intros [H _]].
        intros H. split; [exact H | intros [_ ?]; done].
      * rewrite list_elem_of_filter, enabledTools_elem. split.
        -- intros [Hne H]. split; [exact H | intros [[= ->] _]; done].
        -- intros [H Hn]. split; [|exact H]. intros ->. apply Hn. done.
    + rewrite enabledTools_elem. split; [|by intros [H _]].
      intros H. split; [exact H|]. intros [[= ->] _].
      apply Hnin, enabledTools_elem, H.
  - rewrite enabledTools_elem. split; [|by intros [H _]].
    intros H. split; [exact H | intros [? _]; done].
Qed.

(** ** Selecting document sets and groups *)

Section Selections.

Import EditorForm.

Lemma delete_NoDup_elem (l : list nat) (ind d x : nat) :
  NoDup l → l !! ind = Some d →
  NoDup (delete ind l) ∧ (x ∈ delete ind l ↔ x ∈ l ∧ x ≠ d).
Proof.
  intros Hnd Hi.
  rewrite <- (take_drop_middle l ind d Hi) in Hnd.
  apply NoDup_app in Hnd as (Ht & Hcross & Hd).
  apply NoDup_cons in Hd as [Hnin Hd].
  rewrite delete_take_drop. split.
  - apply NoDup_app. split; [exact Ht|]. split; [|exact Hd].
    intros y Hy Hy'. apply (Hcross y Hy). by right.
  - rewrite <- (take_drop_middle l ind d Hi) at 3.
    rewrite !elem_of_app, elem_of_cons. split.
    + intros [H | H].
      * split; [by left|]. intros ->. apply (Hcross d H). by left.
      * split; [right; by right|]. intros ->. done.
    + intros [[H | [H | H]] Hne]; [by left | done | by right].
Qed.

Lemma toggleDocumentSet_cases (ids : list nat) (d : nat) :
  ((d ∉ ids) ∧ toggleDocumentSet ids d = (ids ++ [d])%list)
  ∨ (∃ ind, ids !! ind = Some d ∧ toggleDocumentSet ids d = (delete ind ids)).
Proof.
  unfold toggleDocumentSet.
  destruct (list_find (fun x => x = d) ids) as [[ind y]|] eqn:Hf.
  - right. apply list_find_Some in Hf as (Hi & -> & _). eauto.
  - left. split; [|reflexivity]. intros Hin.
    apply list_find_None in Hf. rewrite Forall_forall in Hf.
    apply (Hf d Hin). reflexivity.
Qed.

End Selections.

(** X12: clicking a document set chip keeps the selected ids free of
    repetitions and flips that document set only: it is selected
    afterwards exactly when it was not before, and clicking an unselected
    set twice gives back the list as it was.  Clicking a user group
    bubble flips that group whatever the list holds; and an assistant
    marked public is submitted with no group. *)
Theorem X12_selection_toggles :
  ∀ (ids groups : list nat) (d x : nat),
    (NoDup ids →
     NoDup (EditorForm.toggleDocumentSet ids d)
     ∧ (x ∈ EditorForm.toggleDocumentSet ids d
        ↔ if decide (x = d) then x ∉ ids else x ∈ ids))
    ∧ (d ∉ ids →
       EditorForm.toggleDocumentSet (EditorForm.toggleDocumentSet ids d) d
       = ids)
    ∧ (x ∈ EditorForm.toggleGroup groups d
       ↔ if decide (x = d) then x ∉ groups else x ∈ groups)
    ∧ EditorForm.submittedGroups true groups = []
    ∧ EditorForm.submittedGroups false groups = groups.
Proof.
  intros ids groups d x.
  split; [|split; [|split; [|split; reflexivity]]].
  - intros Hnd.
    destruct (toggleDocumentSet_cases ids d) as [[Hnin ->] | (ind & Hi & ->)].
    + split.
      * apply NoDup_app. split; [exact Hnd|]. split; [|apply NoDup_singleton].
        intros y Hy ->%list_elem_of_singleton. done.
      * rewrite elem_of_app, list_elem_of_singleton.
        destruct (decide (x = d)) as [->|Hne]; split.
        -- done.
        -- intros _. by right.
        -- intros [H | H]; done.
        -- intros H. by left.
    + destruct (delete_NoDup_elem ids ind d x Hnd Hi) as [Hn He].
      split; [exact Hn|]. rewrite He.
      destruct (decide (x = d)) as [->|Hne]; split.
      * intros [_ H]. done.
      * intros H. exfalso. apply H. eapply list_elem_of_lookup_2, Hi.
      * intros [H _]. exact H.
      * intros H. done.
  - intros Hnin.
    destruct (toggleDocumentSet_cases ids d) as [[_ ->] | (ind & Hi & _)].
    + unfold EditorForm.toggleDocumentSet.
      destruct (list_find (fun y => y = d) (ids ++ [d])) as [[ind y]|] eqn:Hf.
      * apply list_find_Some in Hf as (Hi & -> & _).
        destruct (decide (ind < length ids)%nat) as [Hlt|Hge].
        -- rewrite lookup_app_l in Hi by exact Hlt.
           exfalso. apply Hnin. eapply list_elem_of_lookup_2, Hi.
        -- pose proof (lookup_lt_Some _ _ _ Hi) as Hlen.
           rewrite length_app in Hlen. cbn in Hlen.
           assert (ind = length ids) as -> by lia.
           rewrite delete_take_drop, take_app_length.
           rewrite drop_app_ge by lia.
           replace (S (length ids) - length ids)%nat with 1%nat by lia.
           cbn. apply app_nil_r.
      * apply list_find_None in Hf. rewrite Forall_forall in Hf.
        exfalso. apply (Hf d); [|reflexivity].
        apply elem_of_app. right. by left.
    + exfalso. apply Hnin. eapply list_elem_of_lookup_2, Hi.
  - unfold EditorForm.toggleGroup.
    destruct (bool_decide_reflect (d ∈ groups)) as [Hin|Hnin].
    + rewrite list_elem_of_filter.
      destruct (decide (x = d)) as [->|Hne]; split.
      * intros [H _]. done.
      * intros H. done.
      * intros [_ H]. exact H.
      * intros H. done.
    + rewrite elem_of_app, list_elem_of_singleton.
      destruct (decide (x = d)) as [->|Hne]; split.
      * done.
      * intros _. by right.
      * intros [H | H]; done.
      * intros H. by left.
Qed.

(** Document sets 4 and 9 selected; the chip of 9 is clicked. *)
Lemma X12_witness_deselect :
  NoDup (EditorForm.toggleDocumentSet [4; 9]%nat 9%nat)
  ∧ (4%nat ∈ EditorForm.toggleDocumentSet [4; 9]%nat 9%nat
     ↔ if decide (4%nat = 9%nat) then 4%nat ∉ [4; 9]%nat
       else 4%nat ∈ [4; 9]%nat).
Proof.
  exact (proj1 (X12_selection_toggles [4; 9]%nat [] 9%nat 4%nat)
           ltac:(repeat constructor; set_solver)).
Defined.

(** ** Choosing a model and submitting *)

(** X13: choosing another provider clears the model, choosing the same
    provider again keeps it; after a provider other than the default has
    been newly chosen the submit handler refuses to go on to the API
    calls until a model is chosen, and it never goes on while the prompt
    preview reports an error. *)
Theorem X13_provider_choice_and_refusal :
  ∀ (selected : option string) (values : EditorForm.LLMValues)
    (finalPromptError : string),
    (selected ≠ EditorForm.llm_model_provider_override values →
     EditorForm.selectProvider selected values =
       EditorForm.mkLLMValues selected None)
    ∧ EditorForm.selectProvider
        (EditorForm.llm_model_provider_override values) values = values
    ∧ (selected ≠ EditorForm.llm_model_provider_override values →
       EditorForm.present selected = true →
       ∃ popup,
         EditorForm.submitRefusal finalPromptError
           (EditorForm.selectProvider selected values) = Some popup)
    ∧ (finalPromptError ≠ "" →
       EditorForm.submitRefusal finalPromptError values =
         Some "Cannot submit while there are errors in the form")
    ∧ (EditorForm.submitRefusal finalPromptError values = None
       ↔ finalPromptError = ""
         ∧ (EditorForm.present
              (EditorForm.llm_model_provider_override values) = true →
            EditorForm.present
              (EditorForm.llm_model_version_override values) = true)).
Proof.
  intros selected values finalPromptError.
  assert (Hsel : selected ≠ EditorForm.llm_model_provider_override values →
                 EditorForm.selectProvider selected values =
                 EditorForm.mkLLMValues selected None).
  { intros Hne. unfold EditorForm.selectProvider.
    rewrite bool_decide_eq_true_2 by exact Hne. reflexivity. }
  split; [exact Hsel|]. split; [|split; [|split]].
  - unfold EditorForm.selectProvider.
    rewrite bool_decide_eq_false_2 by (intros H; apply H; reflexivity).
    destruct values; reflexivity.
  - intros Hne Hp. rewrite (Hsel Hne). unfold EditorForm.submitRefusal. cbn.
    rewrite Hp. destruct (String.eqb finalPromptError ""); cbn; eauto.
  - intros Hne. unfold EditorForm.submitRefusal.
    rewrite (proj2 (String.eqb_neq _ _) Hne). reflexivity.
  - unfold EditorForm.submitRefusal.
    destruct (String.eqb_spec finalPromptError "") as [->|Hne]; cbn.
    + destruct (EditorForm.present
                  (EditorForm.llm_model_provider_override values)),
               (EditorForm.present
                  (EditorForm.llm_model_version_override values)); cbn;
        split; try done.
      * intros [_ H]. specialize (H eq_refl). done.
    + split; [done | intros [H _]; done].
Qed.

(** Provider "Azure" chosen over the default, no model yet. *)
Lemma X13_witness_new_provider :
  ∃ popup,
    EditorForm.submitRefusal ""
      (EditorForm.selectProvider (Some "Azure")
         (EditorForm.mkLLMValues None None)) = Some popup.
Proof.
  exact (proj1 (proj2 (proj2 (X13_provider_choice_and_refusal (Some "Azure")
                  (EditorForm.mkLLMValues None None) "")))
           ltac:(discriminate) eq_refl).
Defined.

(** X14: after the API calls the handler reads the assistant from the
    response and goes on to leave the page exactly when an assistant
    response came back ok and the prompt response is ok or has an empty
    body.  When the assistant response is not ok and its body is empty,
    no popup is shown either: the handler awaits [json()] on the body it
    has just read, which rejects, so the page is not left.  Otherwise the
    popup shows the assistant response's body when that response is not
    ok, the fixed "no response received" text when it is missing, and the
    prompt response's body in the remaining case. *)
Theorem X14_submit_outcome :
  ∀ (promptResponse : EditorForm.Response)
    (personaResponse : option EditorForm.Response),
    (EditorForm.submitOutcome promptResponse personaResponse
       = EditorForm.ReadsAssistant
     ↔ ∃ r, personaResponse = Some r
            ∧ EditorForm.ok r = true
            ∧ (EditorForm.ok promptResponse = true
               ∨ EditorForm.text promptResponse = ""))
    ∧ (EditorForm.submitOutcome promptResponse personaResponse
         = EditorForm.JsonRejects
       ↔ ∃ r, personaResponse = Some r
              ∧ EditorForm.ok r = false
              ∧ EditorForm.text r = "")
    ∧ (personaResponse = None →
       EditorForm.submitOutcome promptResponse personaResponse =
         EditorForm.Popup
           "Failed to create Assistant - Failed to create Assistant - no response received")
    ∧ (∀ r, personaResponse = Some r → EditorForm.ok r = false →
            EditorForm.text r ≠ "" →
            EditorForm.submitOutcome promptResponse personaResponse =
              EditorForm.Popup
                ("Failed to create Assistant - " ++ EditorForm.text r))
    ∧ (∀ r, personaResponse = Some r → EditorForm.ok r = true →
            EditorForm.ok promptResponse = false →
            EditorForm.text promptResponse ≠ "" →
            EditorForm.submitOutcome promptResponse personaResponse =
              EditorForm.Popup
                ("Failed to create Assistant - "
                 ++ EditorForm.text promptResponse)).
Proof.
  intros [pok ptext] personaResponse.
  unfold EditorForm.submitOutcome, EditorForm.submitError,
    EditorForm.present. cbn [EditorForm.ok EditorForm.text].
  split; [|split; [|split; [|split]]].
  - destruct personaResponse as [[rok rtext]|];
      cbn [EditorForm.ok EditorForm.text].
    + destruct rok, pok; cbn;
        try destruct (String.eqb_spec rtext "");
        try destruct (String.eqb_spec ptext ""); cbn; split;
        try done;
        try (intros _; eexists; split; [reflexivity|]; cbn; eauto);
        intros (r & [= <-] & H1 & H2); cbn in H1, H2; try done;
        destruct H2 as [H2 | H2]; done.
    + split; [done | intros (r & H & _); done].
  - destruct personaResponse as [[rok rtext]|];
      cbn [EditorForm.ok EditorForm.text].
    + destruct rok, pok; cbn;
        try destruct (String.eqb_spec rtext "");
        try destruct (String.eqb_spec ptext ""); cbn; split;
        try done;
        try (intros _; eexists; split; [reflexivity|]; cbn; eauto);
        intros (r & [= <-] & H1 & H2); cbn in H1, H2; done.
    + split; [done | intros (r & H & _); done].
  - intros ->. reflexivity.
  - intros r -> Hok Htext. destruct r as [rok rtext]. cbn in *. subst rok.
    cbn. rewrite (proj2 (String.eqb_neq _ _) Htext). reflexivity.
  - intros r -> Hok Hpok Hptext. destruct r as [rok rtext]. cbn in *.
    subst rok pok. cbn. rewrite (proj2 (String.eqb_neq _ _) Hptext).
    reflexivity.
Qed.

(** An assistant response that failed with an empty body: the handler
    throws at [json()]. *)
Lemma X14_witness_failed_with_empty_body :
  EditorForm.submitOutcome (EditorForm.mkResponse true "")
    (Some (EditorForm.mkResponse false "")) = EditorForm.JsonRejects.
Proof.
  exact (proj2 (proj1 (proj2 (X14_submit_outcome
                                (EditorForm.mkResponse true "")
                                (Some (EditorForm.mkResponse false "")))))
           (ex_intro _ (EditorForm.mkResponse false "")
              (conj eq_refl (conj eq_refl eq_refl)))).
Defined.

(** ** API key form *)

(** X15: the role sent with an API key is "admin" when the box is
    checked and "basic" otherwise.  A form opened on an existing key and
    submitted untouched sends the key's own role exactly when that role
    is "admin" or "basic"; a form for a new key starts with an empty name
    and sends "basic". *)
Theorem X15_api_key_role :
  ∀ (apiKey : ApiKeyForm.APIKey) (values : ApiKeyForm.Values),
    (ApiKeyForm.role values = "admin" ∨ ApiKeyForm.role values = "basic")
    ∧ (ApiKeyForm.role values = "admin"
       ↔ ApiKeyForm.is_admin values = true)
    ∧ (ApiKeyForm.role (ApiKeyForm.initialValues (Some apiKey)) =
         ApiKeyForm.api_key_role apiKey
       ↔ ApiKeyForm.api_key_role apiKey = "admin"
         ∨ ApiKeyForm.api_key_role apiKey = "basic")
    ∧ ApiKeyForm.payload (ApiKeyForm.initialValues None) =
        ("", false, "basic").
Proof.
  intros apiKey values. unfold ApiKeyForm.role.
  split; [destruct (ApiKeyForm.is_admin values); eauto|].
  split; [destruct (ApiKeyForm.is_admin values); split; done|].
  split; [|reflexivity].
  cbn. destruct (String.eqb_spec (ApiKeyForm.api_key_role apiKey) "admin")
    as [E|E].
  - rewrite E. split; [by left | done].
  - split; [intros <-; by right|]. intros [H | H]; [done | by symmetry].
Qed.
